(** * AI self-healing maintenance dashboard: the rule engine and the history log

    A shallow embedding of [app.py].  The script is a Streamlit page that is
    re-run from its first line on every interaction: it loads the classifier
    and the history table, reads seven sliders and a button, and, when the
    button is pressed, predicts, diagnoses, prescribes, appends one row to
    the history and rewrites [system_log.csv]; it then draws the trend
    charts from the history sorted by time.

    Python integers are [Z], Python floats are binary64 floats, strings are
    [string], a list that is built by [append] is a [list] extended on the
    right, and a DataFrame is a list of column names with a list of rows. *)

From Stdlib Require Import ZArith List String Ascii Bool Lia.
From Stdlib Require Import Permutation Sorted Floats.
Import ListNotations.

Local Open Scope string_scope.
Local Open Scope Z_scope.

(** ** The reading: the seven slider values (lines 46-52) *)

Record Reading : Type := mkReading {
  cpu : Z;
  memory : Z;
  error : Z;
  response : Z;
  threads : Z;
  network : Z;
  disk : Z
}.

(** [l.append(x)] on a Python list. *)
Definition append {A : Type} (l : list A) (x : A) : list A := l ++ [x].

(** ** Diagnostic layer (lines 116-131) *)

Definition root_causes (r : Reading) : list string :=
  let root_causes := [] in
  let root_causes :=
    if cpu r >? 85 then append root_causes "CPU Saturation Detected"
    else root_causes in
  let root_causes :=
    if memory r >? 85 then append root_causes "High Memory Utilization"
    else root_causes in
  let root_causes :=
    if error r >? 7 then append root_causes "Error Spike Detected"
    else root_causes in
  let root_causes :=
    if response r >? 400 then append root_causes "High Response Latency"
    else root_causes in
  let root_causes :=
    if threads r >? 800 then append root_causes "High Thread Count"
    else root_causes in
  let root_causes :=
    if network r >? 800 then append root_causes "High Network Traffic"
    else root_causes in
  let root_causes :=
    if disk r >? 400 then append root_causes "Heavy Disk I/O Activity"
    else root_causes in
  root_causes.

(** ** Prescriptive layer (lines 145-156) *)

Definition solutions (r : Reading) : list string :=
  let solutions := [] in
  let solutions :=
    if cpu r >? 85 then append solutions "Scale CPU resources."
    else solutions in
  let solutions :=
    if memory r >? 85 then append solutions "Investigate memory leaks."
    else solutions in
  let solutions :=
    if threads r >? 800
    then append solutions "Check for thread leaks or runaway processes."
    else solutions in
  let solutions :=
    if network r >? 800
    then append solutions "Analyze unusual network traffic patterns."
    else solutions in
  let solutions :=
    if disk r >? 400 then append solutions "Optimize disk-intensive operations."
    else solutions in
  solutions.

(** ** The rule tables of the specification

    The specification describes both layers as a fixed, ordered table of
    threshold rules of which every rule that holds contributes its text.
    [fired] is that reading of a table; the theorems below compare it with
    the two functions above. *)

Definition rule : Type := (Reading -> bool) * string.

Definition cause_rules : list rule :=
  [ (fun r => cpu r >? 85, "CPU Saturation Detected");
    (fun r => memory r >? 85, "High Memory Utilization");
    (fun r => error r >? 7, "Error Spike Detected");
    (fun r => response r >? 400, "High Response Latency");
    (fun r => threads r >? 800, "High Thread Count");
    (fun r => network r >? 800, "High Network Traffic");
    (fun r => disk r >? 400, "Heavy Disk I/O Activity") ].

Definition remediation_rules : list rule :=
  [ (fun r => cpu r >? 85, "Scale CPU resources.");
    (fun r => memory r >? 85, "Investigate memory leaks.");
    (fun r => threads r >? 800, "Check for thread leaks or runaway processes.");
    (fun r => network r >? 800, "Analyze unusual network traffic patterns.");
    (fun r => disk r >? 400, "Optimize disk-intensive operations.") ].

Definition fired (rules : list rule) (r : Reading) : list string :=
  map snd (filter (fun p => fst p r) rules).

(** ** Timestamps

    [datetime.now()] is a calendar date with a time of day, and
    [strftime("%Y-%m-%d %H:%M:%S")] prints it in nineteen characters, every
    field padded with zeros.  [pd.to_datetime] reads that text back. *)

Record datetime : Type := mkDatetime {
  year : Z;
  month : Z;
  day : Z;
  hour : Z;
  minute : Z;
  second : Z
}.

Definition digit (n : Z) : ascii := ascii_of_nat (48 + Z.to_nat (n mod 10)).

Definition two_digits (n : Z) : string :=
  String (digit (n / 10)) (String (digit n) EmptyString).

Definition four_digits (n : Z) : string :=
  String (digit (n / 1000)) (String (digit (n / 100)) (two_digits n)).

Definition strftime (d : datetime) : string :=
  four_digits (year d) ++ "-" ++ two_digits (month d) ++ "-"
    ++ two_digits (day d) ++ " " ++ two_digits (hour d) ++ ":"
    ++ two_digits (minute d) ++ ":" ++ two_digits (second d).

Definition digit_val (c : ascii) : option Z :=
  let n := Z.of_nat (nat_of_ascii c) in
  if (48 <=? n) && (n <=? 57) then Some (n - 48) else None.

Fixpoint number_of (acc : Z) (cs : list ascii) : option Z :=
  match cs with
  | [] => Some acc
  | c :: cs' =>
      match digit_val c with
      | Some v => number_of (10 * acc + v) cs'
      | None => None
      end
  end.

Definition leap_year (y : Z) : bool :=
  ((y mod 4 =? 0) && negb (y mod 100 =? 0)) || (y mod 400 =? 0).

Definition days_in_month (y m : Z) : Z :=
  if m =? 2 then (if leap_year y then 29 else 28)
  else if (m =? 4) || (m =? 6) || (m =? 9) || (m =? 11) then 30
  else 31.

(** The dates [datetime] can hold: years 1 to 9999 of the calendar. *)
Definition valid_datetime (d : datetime) : bool :=
  (1 <=? year d) && (year d <=? 9999)
  && (1 <=? month d) && (month d <=? 12)
  && (1 <=? day d) && (day d <=? days_in_month (year d) (month d))
  && (0 <=? hour d) && (hour d <=? 23)
  && (0 <=? minute d) && (minute d <=? 59)
  && (0 <=? second d) && (second d <=? 59).

(** The timestamp text the program writes, read back: the separators are
    checked, the six fields are decimal, and the date has to exist. *)
Definition parse_datetime (s : string) : option datetime :=
  match list_ascii_of_string s with
  | [y1; y2; y3; y4; s1; m1; m2; s2; d1; d2; s3; h1; h2; s4; n1; n2; s5; c1; c2] =>
      if Ascii.eqb s1 "-" && Ascii.eqb s2 "-" && Ascii.eqb s3 " "
         && Ascii.eqb s4 ":" && Ascii.eqb s5 ":"
      then
        match number_of 0 [y1; y2; y3; y4], number_of 0 [m1; m2],
              number_of 0 [d1; d2], number_of 0 [h1; h2],
              number_of 0 [n1; n2], number_of 0 [c1; c2] with
        | Some y, Some m, Some d, Some h, Some n, Some c =>
            let t := mkDatetime y m d h n c in
            if valid_datetime t then Some t else None
        | _, _, _, _, _, _ => None
        end
      else None
  | _ => None
  end.

(** Chronological order: the six fields compared from the year down. *)
Fixpoint lex_leb (a b : list Z) : bool :=
  match a, b with
  | x :: a', y :: b' =>
      if x <? y then true else if x =? y then lex_leb a' b' else false
  | _, _ => true
  end.

Definition fields (d : datetime) : list Z :=
  [year d; month d; day d; hour d; minute d; second d].

Definition datetime_leb (a b : datetime) : bool := lex_leb (fields a) (fields b).

(** A value of a datetime column: [None] is pandas's [NaT], which
    [sort_values] puts after every date ([na_position="last"]). *)
Definition time_leb (a b : option datetime) : bool :=
  match a, b with
  | Some x, Some y => datetime_leb x y
  | _, None => true
  | None, Some _ => false
  end.

(** ** Cells and frames

    A cell of a DataFrame is an integer, a float, a string, a datetime
    ([VTime None] is [NaT]) or the missing value [NaN].  A frame has its
    column names and its rows; a row carries its index label and one cell
    per column, in column order. *)

Inductive cell : Type :=
| VInt (z : Z)
| VFloat (f : float)
| VStr (s : string)
| VTime (t : option datetime)
| NaN.

Definition row : Type := (cell * list cell)%type.

Record DataFrame : Type := mkFrame {
  columns : list string;
  rows : list row
}.

(** [len(df)] *)
Definition len (df : DataFrame) : Z := Z.of_nat (List.length (rows df)).

(** The default [RangeIndex]: labels 0, 1, 2, ... *)
Fixpoint label_from (i : Z) (lines : list (list cell)) : list row :=
  match lines with
  | [] => []
  | x :: lines' => (VInt i, x) :: label_from (i + 1) lines'
  end.

Definition has_column (c : string) (cols : list string) : bool :=
  existsb (String.eqb c) cols.

(** The cell of a row under column [c], the first column of that name. *)
Fixpoint at_column (c : string) (cols : list string) (cells : list cell)
  : option cell :=
  match cols, cells with
  | k :: cols', v :: cells' =>
      if String.eqb k c then Some v else at_column c cols' cells'
  | _, _ => None
  end.

Definition cell_or_nan (o : option cell) : cell :=
  match o with Some v => v | None => NaN end.

(** Replace the cell under column [c]. *)
Fixpoint set_column (c : string) (cols : list string) (v : cell)
    (cells : list cell) : list cell :=
  match cols, cells with
  | k :: cols', x :: cells' =>
      if String.eqb k c then v :: cells' else x :: set_column c cols' v cells'
  | _, _ => cells
  end.

(** Remove the cell under column [c], and the column name itself. *)
Fixpoint drop_column (c : string) (cols : list string) (cells : list cell)
  : list cell :=
  match cols, cells with
  | k :: cols', x :: cells' =>
      if String.eqb k c then cells' else x :: drop_column c cols' cells'
  | _, _ => cells
  end.

Fixpoint remove_name (c : string) (cols : list string) : list string :=
  match cols with
  | [] => []
  | k :: cols' => if String.eqb k c then cols' else k :: remove_name c cols'
  end.

(** *** [pd.concat([a, b], ignore_index=True)]

    The columns of the result are those of [a] followed by the new ones of
    [b]; every row is laid out again under them, with [NaN] where its frame
    had no such column; the index is renumbered. *)

Definition union_columns (a b : list string) : list string :=
  (a ++ filter (fun c => negb (has_column c a)) b)%list.

Definition reindex (src cols : list string) (cells : list cell) : list cell :=
  map (fun c => cell_or_nan (at_column c src cells)) cols.

Definition concat (a b : DataFrame) : DataFrame :=
  let cols := union_columns (columns a) (columns b) in
  mkFrame cols
    (label_from 0
       (map (fun r => reindex (columns a) cols (snd r)) (rows a)
        ++ map (fun r => reindex (columns b) cols (snd r)) (rows b))%list).

(** [df.tail(n)] *)
Definition tail (n : nat) (df : DataFrame) : DataFrame :=
  mkFrame (columns df) (skipn (List.length (rows df) - n) (rows df)).

(** ** The history table (lines 32-38 and 168-179) *)

Definition history_columns : list string :=
  [ "Timestamp";
    "CPU"; "Memory"; "Error"; "Response";
    "Threads";
    "Network_Traffic"; "Disk_IO";
    "Crash_Probability"; "Failure_Next_5min" ].

Record HistoryRecord : Type := mkRecord {
  Timestamp : string;
  CPU : Z;
  Memory : Z;
  Error : Z;
  Response : Z;
  Threads : Z;
  Network_Traffic : Z;
  Disk_IO : Z;
  Crash_Probability : float;
  Failure_Next_5min : string
}.

Definition cells_of (r : HistoryRecord) : list cell :=
  [ VStr (Timestamp r);
    VInt (CPU r); VInt (Memory r); VInt (Error r); VInt (Response r);
    VInt (Threads r);
    VInt (Network_Traffic r); VInt (Disk_IO r);
    VFloat (Crash_Probability r); VStr (Failure_Next_5min r) ].

(** [new_log = pd.DataFrame({...})]: one row, labelled 0. *)
Definition new_log (r : HistoryRecord) : DataFrame :=
  mkFrame history_columns [(VInt 0, cells_of r)].

(** ** The two files and the page

    [predictive_model.pkl] holds a pickled classifier, or bytes that do not
    unpickle, or is absent.  A classifier answers, for one row of seven
    features, a label and the probabilities of the two classes.

    [system_log.csv] is absent, or has no header line at all, or holds a
    header and lines of cells.  pandas writes an integer in decimal, a float
    by its shortest text that reads back, a string as it is and a missing
    value as an empty field, so a file is modelled by the table whose text it
    is; a line shorter than the header reads as one filled up with [NaN]. *)

Record Model : Type := mkModel {
  predict : list Z -> Z;
  predict_proba : list Z -> float * float
}.

Inductive artifact : Type :=
| pickled (m : Model)
| corrupt.

Inductive csv_file : Type :=
| no_header
| table (header : list string) (lines : list (list cell)).

(** What the page shows, in the order of the calls. *)
Inductive Widget : Type :=
| st_set_page_config (page_title layout : string)
| st_title (s : string)
| st_write (s : string)
| st_write_probability (p : float)
| st_divider
| st_subheader (s : string)
| st_slider (label : string) (lo hi value : Z)
| st_columns (n : Z)
| st_metric (label : string) (value : Z) (unit : string)
| st_button (label : string)
| st_error (s : string)
| st_success (s : string)
| st_info (s : string)
| st_warning (s : string)
| st_markdown (s : string)
| st_line_chart (series : list (cell * cell))
| st_dataframe (df : DataFrame).

Record World : Type := mkWorld {
  predictive_model_pkl : option artifact;
  system_log_csv : option csv_file;
  page : list Widget
}.

(** What the operator and the clock supply to one run of the script. *)
Record Session : Type := mkSession {
  sliders : Reading;
  predict_button : bool;
  now : datetime
}.

(** ** Exceptions and the script monad

    A statement either finishes with a value and the world it leaves, or
    raises; nothing in the script catches an exception, so a raise ends the
    run with the world as it was at that point. *)

Inductive exn : Type :=
| FileNotFoundError (path : string)
| UnpicklingError (path : string)
| EmptyDataError
| KeyError (key : string)
| ParserError (text : string)
| TypeError.

Inductive outcome (A : Type) : Type :=
| Ok (a : A) (w : World)
| Raise (e : exn) (w : World).

Arguments Ok {A} a w.
Arguments Raise {A} e w.

Definition M (A : Type) : Type := World -> outcome A.

Definition ret {A : Type} (a : A) : M A := fun w => Ok a w.

Definition bind {A B : Type} (c : M A) (k : A -> M B) : M B :=
  fun w =>
    match c w with
    | Ok a w' => k a w'
    | Raise e w' => Raise e w'
    end.

Definition raise {A : Type} (e : exn) : M A := fun w => Raise e w.

Declare Scope script_scope.
Delimit Scope script_scope with script.
Notation "x <- c ;; k" := (bind c (fun x => k))
  (at level 61, c at next level, right associativity) : script_scope.
Notation "c ;; k" := (bind c (fun _ => k))
  (at level 61, right associativity) : script_scope.
Local Open Scope script_scope.

(** A call that draws a widget. *)
Definition st (x : Widget) : M unit :=
  fun w =>
    Ok tt (mkWorld (predictive_model_pkl w) (system_log_csv w)
             (page w ++ [x])%list).

Fixpoint for_each {A : Type} (l : list A) (body : A -> M unit) : M unit :=
  match l with
  | [] => ret tt
  | x :: l' => body x ;; for_each l' body
  end.

(** ** The library calls of the script *)

Definition model_file : string := "predictive_model.pkl".
Definition log_file : string := "system_log.csv".

Definition with_log (w : World) (f : option csv_file) : World :=
  mkWorld (predictive_model_pkl w) f (page w).

(** [joblib.load("predictive_model.pkl")] *)
Definition joblib_load : M Model :=
  fun w =>
    match predictive_model_pkl w with
    | Some (pickled m) => Ok m w
    | Some corrupt => Raise (UnpicklingError model_file) w
    | None => Raise (FileNotFoundError model_file) w
    end.

(** [os.path.exists(log_file)] *)
Definition os_path_exists : M bool :=
  fun w =>
    Ok (match system_log_csv w with Some _ => true | None => false end) w.

(** [pd.read_csv(log_file)]: whatever columns the header names. *)
Definition read_csv : M DataFrame :=
  fun w =>
    match system_log_csv w with
    | Some (table header lines) => Ok (mkFrame header (label_from 0 lines)) w
    | Some no_header => Raise EmptyDataError w
    | None => Raise (FileNotFoundError log_file) w
    end.

(** [df.to_csv(log_file, index=False)]: the whole table, without the index,
    over whatever the file held. *)
Definition to_csv (df : DataFrame) : M unit :=
  fun w => Ok tt (with_log w (Some (table (columns df) (map snd (rows df))))).

(** [df[c]]: the column as a series of (index label, value). *)
Definition getitem (df : DataFrame) (c : string) : M (list (cell * cell)) :=
  if has_column c (columns df)
  then ret (map (fun r => (fst r, cell_or_nan (at_column c (columns df) (snd r))))
              (rows df))
  else raise (KeyError c).

(** [pd.to_datetime(series)], for the values the program writes into the
    Timestamp column and for missing ones: text of the program's own format
    becomes a date, [NaN] becomes [NaT], a date stays.  (pandas reads a
    number as a count of nanoseconds; the program never stores one there, and
    the model stops on it.) *)
Definition to_datetime_cell (v : cell) : M cell :=
  match v with
  | VStr s =>
      match parse_datetime s with
      | Some d => ret (VTime (Some d))
      | None => raise (ParserError s)
      end
  | VTime t => ret (VTime t)
  | NaN => ret (VTime None)
  | VInt _ | VFloat _ => raise TypeError
  end.

Fixpoint to_datetime (s : list (cell * cell)) : M (list (cell * cell)) :=
  match s with
  | [] => ret []
  | (i, v) :: s' =>
      v' <- to_datetime_cell v ;;
      s'' <- to_datetime s' ;;
      ret ((i, v') :: s'')
  end.

(** [df[c] = series], for a series over the rows of [df] itself. *)
Fixpoint assign (c : string) (cols : list string) (rs : list row)
    (s : list (cell * cell)) : list row :=
  match rs, s with
  | r :: rs', (_, v) :: s' =>
      (fst r, set_column c cols v (snd r)) :: assign c cols rs' s'
  | _, _ => rs
  end.

Definition setitem (df : DataFrame) (c : string) (s : list (cell * cell))
  : DataFrame :=
  mkFrame (columns df) (assign c (columns df) (rows df) s).

(** [df.sort_values(c)] on a datetime column: ascending, [NaT] last. *)
Definition as_time (v : cell) : option datetime :=
  match v with VTime t => t | _ => None end.

Definition time_under (c : string) (cols : list string) (r : row)
  : option datetime :=
  as_time (cell_or_nan (at_column c cols (snd r))).

Fixpoint insert_row (key : row -> option datetime) (r : row) (l : list row)
  : list row :=
  match l with
  | [] => [r]
  | x :: l' =>
      if time_leb (key r) (key x) then r :: x :: l'
      else x :: insert_row key r l'
  end.

Definition sort_rows (key : row -> option datetime) (l : list row) : list row :=
  fold_right (insert_row key) [] l.

Definition sort_values (df : DataFrame) (c : string) : M DataFrame :=
  if has_column c (columns df)
  then ret (mkFrame (columns df)
              (sort_rows (time_under c (columns df)) (rows df)))
  else raise (KeyError c).

(** [df.set_index(c, inplace=True)]: the column becomes the index. *)
Definition set_index (df : DataFrame) (c : string) : M DataFrame :=
  if has_column c (columns df)
  then ret (mkFrame (remove_name c (columns df))
              (map (fun r => (cell_or_nan (at_column c (columns df) (snd r)),
                              drop_column c (columns df) (snd r)))
                 (rows df)))
  else raise (KeyError c).

(** ** The history store *)

(** Lines 29-38: the table of the file, or an empty one with the columns of
    the program. *)
Definition load_history : M DataFrame :=
  present <- os_path_exists ;;
  if present then read_csv else ret (mkFrame history_columns []).

(** Lines 168-182: one more row, and the whole table written back. *)
Definition append_log (history : DataFrame) (r : HistoryRecord) : M DataFrame :=
  let new_log := new_log r in
  let history := concat history new_log in
  to_csv history ;;
  ret history.

(** Lines 196-198: the history in time order, indexed by time. *)
Definition ordered_by_time (history : DataFrame) : M DataFrame :=
  stamps <- getitem history "Timestamp" ;;
  stamps <- to_datetime stamps ;;
  let history := setitem history "Timestamp" stamps in
  history <- sort_values history "Timestamp" ;;
  set_index history "Timestamp".

(** [st.line_chart(history[c])] *)
Definition line_chart (history : DataFrame) (c : string) : M unit :=
  series <- getitem history c ;;
  st (st_line_chart series).

(** Lines 192-236. *)
Definition trend_section (history : DataFrame) : M DataFrame :=
  st (st_subheader "📈 System Trend Graphs") ;;
  if len history >? 1 then
    history <- ordered_by_time history ;;
    st (st_markdown "### 🔥 Core System Trends") ;;
    st (st_columns 2) ;;
    st (st_markdown "#### CPU Usage Trend") ;;
    line_chart history "CPU" ;;
    st (st_markdown "#### Memory Usage Trend") ;;
    line_chart history "Memory" ;;
    st (st_markdown "---") ;;
    st (st_markdown "### 🌐 Advanced Resource Trends") ;;
    st (st_columns 2) ;;
    st (st_markdown "#### Network Traffic Trend") ;;
    line_chart history "Network_Traffic" ;;
    st (st_markdown "#### Disk I/O Trend") ;;
    line_chart history "Disk_IO" ;;
    st (st_markdown "---") ;;
    st (st_markdown "#### Thread Activity Trend") ;;
    line_chart history "Threads" ;;
    ret history
  else
    st (st_info "Not enough data to show trends yet. Run analysis multiple times.") ;;
    ret history.

(** Lines 242-247. *)
Definition history_table (history : DataFrame) : M unit :=
  st (st_subheader "📜 System History") ;;
  if len history >? 0 then st (st_dataframe (tail 10 history))
  else st (st_info "No historical data yet.").

(** ** The analysis (lines 80-182) *)

(** Lines 114-137: the root causes, shown one warning each. *)
Definition diagnostic_layer (r : Reading) : M (list string) :=
  st (st_subheader "🔍 Root Cause Analysis") ;;
  let root_causes := root_causes r in
  (if Z.of_nat (List.length root_causes) =? 0
   then st (st_info "No critical anomalies detected.")
   else for_each root_causes (fun cause => st (st_warning ("• " ++ cause)))) ;;
  ret root_causes.

(** Lines 143-162: the recommended actions, shown one line each. *)
Definition prescriptive_layer (r : Reading) : M (list string) :=
  st (st_subheader "🛠 Recommended Actions") ;;
  let solutions := solutions r in
  (if Z.of_nat (List.length solutions) =? 0
   then st (st_success "System stable. No corrective action required.")
   else for_each solutions (fun solution => st (st_write ("• " ++ solution)))) ;;
  ret solutions.

Definition analysis (model : Model) (history : DataFrame) (r : Reading)
    (clock : datetime) : M DataFrame :=
  let input_data :=
    [cpu r; memory r; error r; response r; threads r; network r; disk r] in
  let prediction := predict model input_data in
  let probability := (snd (predict_proba model input_data) * 100)%float in
  let failure_next_5min := if prediction =? 1 then "YES" else "NO" in
  let timestamp := strftime clock in
  st st_divider ;;
  st (st_subheader "🔮 Predictive Analysis") ;;
  st (st_write_probability probability) ;;
  st (st_write ("Timestamp: " ++ timestamp)) ;;
  (if prediction =? 1 then st (st_error "⚠️ High Risk of System Crash!")
   else st (st_success "✅ System Operating Normally")) ;;
  diagnostic_layer r ;;
  prescriptive_layer r ;;
  append_log history
    (mkRecord timestamp (cpu r) (memory r) (error r) (response r) (threads r)
       (network r) (disk r) probability failure_next_5min).

(** The slider ranges of lines 46-52, as a clamp.  The program has no such
    step: the specification leaves it to the implementation, and the
    theorems compare the rules with and without it. *)
Definition clamp (lo hi x : Z) : Z := Z.max lo (Z.min hi x).

Definition clamp_to_sliders (r : Reading) : Reading :=
  mkReading (clamp 0 100 (cpu r)) (clamp 0 100 (memory r))
    (clamp 0 10 (error r)) (clamp 0 500 (response r))
    (clamp 0 1000 (threads r)) (clamp 0 1000 (network r))
    (clamp 0 500 (disk r)).

(** ** The script, top to bottom *)

Definition slider (label : string) (lo hi default value : Z) : M Z :=
  st (st_slider label lo hi default) ;;
  ret value.

Definition button (label : string) (pressed : bool) : M bool :=
  st (st_button label) ;;
  ret pressed.

(** Lines 12-19. *)
Definition page_config : M unit :=
  st (st_set_page_config "AI Self-Healing Maintenance System" "wide") ;;
  st (st_title "🧠 Intelligent Self‑Diagnosing Maintenance Dashboard") ;;
  st (st_write "Predictive • Diagnostic • Prescriptive AI System") ;;
  st st_divider.

(** Lines 44-52: the seven sliders, answered by the operator. *)
Definition input_section (s : Session) : M Reading :=
  st (st_subheader "⚙️ System Parameters") ;;
  cpu <- slider "CPU Usage (%)" 0 100 50 (cpu (sliders s)) ;;
  memory <- slider "Memory Usage (%)" 0 100 50 (memory (sliders s)) ;;
  error <- slider "Error Rate" 0 10 1 (error (sliders s)) ;;
  response <- slider "Response Time (ms)" 0 500 200 (response (sliders s)) ;;
  threads <- slider "Active Threads" 0 1000 200 (threads (sliders s)) ;;
  network <- slider "Network Traffic (MB/s)" 0 1000 100 (network (sliders s)) ;;
  disk <- slider "Disk I/O (MB/s)" 0 500 50 (disk (sliders s)) ;;
  ret (mkReading cpu memory error response threads network disk).

(** Lines 58-72. *)
Definition live_metrics (r : Reading) : M unit :=
  st (st_subheader "📊 Live Metrics") ;;
  st (st_columns 3) ;;
  st (st_columns 3) ;;
  st (st_columns 1) ;;
  st (st_metric "CPU Usage" (cpu r) "%") ;;
  st (st_metric "Memory Usage" (memory r) "%") ;;
  st (st_metric "Error Rate" (error r) EmptyString) ;;
  st (st_metric "Response Time" (response r) " ms") ;;
  st (st_metric "Network Traffic" (network r) " MB/s") ;;
  st (st_metric "Disk I/O" (disk r) " MB/s") ;;
  st (st_metric "Active Threads" (threads r) EmptyString).

Definition app (s : Session) : M unit :=
  page_config ;;
  model <- joblib_load ;;
  history <- load_history ;;
  r <- input_section s ;;
  live_metrics r ;;
  predict_button <- button "🚀 Run AI System Analysis" (predict_button s) ;;
  history <-
    (if predict_button then analysis model history r (now s)
     else ret history) ;;
  history <- trend_section history ;;
  history_table history.

(** * What the statements are about

    The tables, frames and worlds the theorems name: the results the
    script is compared with, and the inputs of the worked examples. *)

(** The world with another page. *)
Definition with_page (w : World) (p : list Widget) : World :=
  mkWorld (predictive_model_pkl w) (system_log_csv w) p.

(** What each layer adds to the page. *)
Definition diagnostic_widgets (r : Reading) : list Widget :=
  st_subheader "🔍 Root Cause Analysis"
  :: (if Z.of_nat (List.length (root_causes r)) =? 0
      then [st_info "No critical anomalies detected."]
      else map (fun cause => st_warning ("• " ++ cause)) (root_causes r)).

Definition prescriptive_widgets (r : Reading) : list Widget :=
  st_subheader "🛠 Recommended Actions"
  :: (if Z.of_nat (List.length (solutions r)) =? 0
      then [st_success "System stable. No corrective action required."]
      else map (fun solution => st_write ("• " ++ solution)) (solutions r)).

(** What lines 12-19 draw. *)
Definition banner : list Widget :=
  [ st_set_page_config "AI Self-Healing Maintenance System" "wide";
    st_title "🧠 Intelligent Self‑Diagnosing Maintenance Dashboard";
    st_write "Predictive • Diagnostic • Prescriptive AI System";
    st_divider ].

(** The widgets through which the operator enters something. *)
Definition is_input (x : Widget) : bool :=
  match x with
  | st_slider _ _ _ _ | st_button _ => true
  | _ => false
  end.

(** The model file is there and unpickles. *)
Definition loadable (w : World) : bool :=
  match predictive_model_pkl w with
  | Some (pickled _) => true
  | _ => false
  end.

(** Every line has one cell per column. *)
Definition aligned (cols : list string) (lines : list (list cell)) : Prop :=
  Forall (fun l => List.length l = List.length cols) lines.

(** A store the program itself has written, or none yet: the header is the
    ten columns and every line has a cell for each. *)
Definition history_store (f : option csv_file) : Prop :=
  match f with
  | None => True
  | Some (table header lines) =>
      header = history_columns /\ aligned header lines
  | Some no_header => False
  end.

(** A row of the table read as a record. *)
Definition record_of (cells : list cell) : option HistoryRecord :=
  match cells with
  | [ VStr ts; VInt c; VInt m; VInt e; VInt rt; VInt t; VInt n; VInt d;
      VFloat p; VStr f ] => Some (mkRecord ts c m e rt t n d p f)
  | _ => None
  end.

(** The lines a store holds. *)
Definition stored (f : option csv_file) : list (list cell) :=
  match f with
  | Some (table _ lines) => lines
  | _ => []
  end.

(** [time_leb] as a relation. *)
Definition time_le (a b : option datetime) : Prop := time_leb a b = true.

(** The order of two rows under a key. *)
Definition key_le (key : row -> option datetime) (a b : row) : Prop :=
  time_le (key a) (key b).

(** The date a Timestamp cell stands for. *)
Definition stamp (v : cell) : option datetime :=
  match v with
  | VStr s => parse_datetime s
  | VTime t => t
  | _ => None
  end.

(** The cells [to_datetime_cell] converts. *)
Definition converts (v : cell) : bool :=
  match v with
  | VStr s => match parse_datetime s with Some _ => true | None => false end
  | VTime _ | NaN => true
  | VInt _ | VFloat _ => false
  end.

(** The cell of a row under a column, [NaN] when the row has none. *)
Definition under (c : string) (cols : list string) (r : row) : cell :=
  cell_or_nan (at_column c cols (snd r)).

(** Every Timestamp of the history is one [pd.to_datetime] converts. *)
Definition timestamps_convert (history : DataFrame) : bool :=
  forallb (fun r => converts (under "Timestamp" (columns history) r))
    (rows history).

(** The history with its Timestamp column converted, as line 196 leaves it. *)
Definition converted (history : DataFrame) : list row :=
  map (fun r =>
         (fst r,
          set_column "Timestamp" (columns history)
            (VTime (stamp (under "Timestamp" (columns history) r))) (snd r)))
    (rows history).

(** The frame of lines 196-198, written out. *)
Definition in_time_order (history : DataFrame) : DataFrame :=
  mkFrame (remove_name "Timestamp" (columns history))
    (map (fun r => (under "Timestamp" (columns history) r,
                    drop_column "Timestamp" (columns history) (snd r)))
       (sort_rows (time_under "Timestamp" (columns history))
          (converted history))).

(** [history[c]] *)
Definition series (history : DataFrame) (c : string) : list (cell * cell) :=
  map (fun r => (fst r, under c (columns history) r)) (rows history).

(** What the trend section draws from a history of more than one row. *)
Definition trend_widgets (history : DataFrame) : list Widget :=
  [ st_markdown "### 🔥 Core System Trends";
    st_columns 2;
    st_markdown "#### CPU Usage Trend";
    st_line_chart (series history "CPU");
    st_markdown "#### Memory Usage Trend";
    st_line_chart (series history "Memory");
    st_markdown "---";
    st_markdown "### 🌐 Advanced Resource Trends";
    st_columns 2;
    st_markdown "#### Network Traffic Trend";
    st_line_chart (series history "Network_Traffic");
    st_markdown "#### Disk I/O Trend";
    st_line_chart (series history "Disk_IO");
    st_markdown "---";
    st_markdown "#### Thread Activity Trend";
    st_line_chart (series history "Threads") ].

(** Three records appended with the clock running backwards. *)
Definition skewed_history : DataFrame :=
  mkFrame history_columns
    (label_from 0
       [ cells_of (mkRecord "2024-03-09 07:05:59" 90 90 1 100 900 50 20 75 "YES");
         cells_of (mkRecord "2024-03-09 07:05:58" 50 50 1 100 200 50 20 12.5 "NO");
         cells_of (mkRecord "2023-12-31 23:59:59" 10 20 3 40 50 60 70 1.5 "NO") ]).

(** A file that has only two of the ten columns, and one line. *)
Definition partial_log : csv_file :=
  table ["Timestamp"; "CPU"] [[VStr "2024-03-09 07:05:59"; VInt 90]].

(** A classifier that answers "normal" with probability 0.25 of a crash. *)
Definition some_model : Model :=
  mkModel (fun _ => 0) (fun _ => (0.75, 0.25)%float).

(** The worlds and sessions of the worked examples. *)
Definition partial_world : World :=
  mkWorld (Some (pickled some_model)) (Some partial_log) [].

Definition idle_session : Session :=
  mkSession (mkReading 50 50 1 200 200 100 50) false
    (mkDatetime 2024 3 9 7 6 10).

Definition pressed_session : Session :=
  mkSession (mkReading 50 50 1 200 200 100 50) true
    (mkDatetime 2024 3 9 7 6 10).

(** The history file and the exception a run ends with. *)
Definition final_log {A : Type} (o : outcome A) : option csv_file :=
  match o with
  | Ok _ w => system_log_csv w
  | Raise _ w => system_log_csv w
  end.

Definition raised {A : Type} (o : outcome A) : option exn :=
  match o with
  | Ok _ _ => None
  | Raise e _ => Some e
  end.

(** The record an analysis logs (lines 83-97 and 168-179). *)
Definition evaluation_record (model : Model) (r : Reading) (clock : datetime)
  : HistoryRecord :=
  let input_data :=
    [cpu r; memory r; error r; response r; threads r; network r; disk r] in
  mkRecord (strftime clock) (cpu r) (memory r) (error r) (response r)
    (threads r) (network r) (disk r)
    (snd (predict_proba model input_data) * 100)%float
    (if predict model input_data =? 1 then "YES" else "NO").

(** A statement that leaves the history file alone, however it ends. *)
Definition keeps_log {A : Type} (c : M A) : Prop :=
  forall w, final_log (c w) = system_log_csv w.

(** A statement that never raises, returns [a], and leaves both files. *)
Definition yields {A : Type} (c : M A) (a : A) : Prop :=
  forall w, exists w',
    c w = Ok a w'
    /\ system_log_csv w' = system_log_csv w
    /\ predictive_model_pkl w' = predictive_model_pkl w.

(** The reading the sliders return. *)
Definition slider_reading (s : Session) : Reading :=
  mkReading (cpu (sliders s)) (memory (sliders s)) (error (sliders s))
    (response (sliders s)) (threads (sliders s)) (network (sliders s))
    (disk (sliders s)).

(** ** Further notions

    One reading is below another when each of its seven values is. *)
Definition reading_le (a b : Reading) : Prop :=
  cpu a <= cpu b /\ memory a <= memory b /\ error a <= error b
  /\ response a <= response b /\ threads a <= threads b
  /\ network a <= network b /\ disk a <= disk b.

(** The two notices of the layers when nothing fired. *)
Definition no_anomaly : Widget := st_info "No critical anomalies detected.".

Definition system_stable : Widget :=
  st_success "System stable. No corrective action required.".

(** No threshold of the diagnostic layer, or of the prescriptive layer,
    is exceeded. *)
Definition within_cause_thresholds (r : Reading) : Prop :=
  cpu r <= 85 /\ memory r <= 85 /\ error r <= 7 /\ response r <= 400
  /\ threads r <= 800 /\ network r <= 800 /\ disk r <= 400.

Definition within_remediation_thresholds (r : Reading) : Prop :=
  cpu r <= 85 /\ memory r <= 85 /\ threads r <= 800 /\ network r <= 800
  /\ disk r <= 400.

(** The world a run ends in, and what it means for a statement to leave
    an observation [f] of the world as it found it, however it ends. *)
Definition world_of {A : Type} (o : outcome A) : World :=
  match o with
  | Ok _ w => w
  | Raise _ w => w
  end.

Definition preserves {X A : Type} (f : World -> X) (c : M A) : Prop :=
  forall w, f (world_of (c w)) = f w.

(** The table line 30 or lines 32-38 give for a file that reads. *)
Definition loaded (f : option csv_file) : DataFrame :=
  match f with
  | Some (table header lines) => mkFrame header (label_from 0 lines)
  | _ => mkFrame history_columns []
  end.

(** The file [to_csv] writes for a frame. *)
Definition csv_of (df : DataFrame) : csv_file :=
  table (columns df) (map snd (rows df)).

(** What the analysis draws before the two layers (lines 99-108), for the
    record it logs. *)
Definition verdict_widgets (r : HistoryRecord) : list Widget :=
  [ st_divider;
    st_subheader "🔮 Predictive Analysis";
    st_write_probability (Crash_Probability r);
    st_write ("Timestamp: " ++ Timestamp r);
    if String.eqb (Failure_Next_5min r) "YES"
    then st_error "⚠️ High Risk of System Crash!"
    else st_success "✅ System Operating Normally" ].

(** A line whose Timestamp [pd.to_datetime] converts, and a store of the
    program all of whose lines are such. *)
Definition line_converts (l : list cell) : bool :=
  converts (cell_or_nan (at_column "Timestamp" history_columns l)).

Definition healthy_store (f : option csv_file) : Prop :=
  history_store f /\ forallb line_converts (stored f) = true.

(** The table the trend section and the history table of a run work on:
    the loaded one, with the record of the run when the button is pressed. *)
Definition displayed (model : Model) (s : Session) (f : option csv_file)
  : DataFrame :=
  if predict_button s
  then concat (loaded f)
         (new_log (evaluation_record model (slider_reading s) (now s)))
  else loaded f.

(** The columns the trend section charts, in the order of lines 207-233. *)
Definition chart_columns : list string :=
  ["CPU"; "Memory"; "Network_Traffic"; "Disk_IO"; "Threads"].

Definition is_chart (x : Widget) : bool :=
  match x with
  | st_line_chart _ => true
  | _ => false
  end.

(** What lines 44-78 draw: the sliders, the metrics and the button. *)
Definition input_widgets (r : Reading) : list Widget :=
  [ st_subheader "⚙️ System Parameters";
    st_slider "CPU Usage (%)" 0 100 50;
    st_slider "Memory Usage (%)" 0 100 50;
    st_slider "Error Rate" 0 10 1;
    st_slider "Response Time (ms)" 0 500 200;
    st_slider "Active Threads" 0 1000 200;
    st_slider "Network Traffic (MB/s)" 0 1000 100;
    st_slider "Disk I/O (MB/s)" 0 500 50;
    st_subheader "📊 Live Metrics";
    st_columns 3; st_columns 3; st_columns 1;
    st_metric "CPU Usage" (cpu r) "%";
    st_metric "Memory Usage" (memory r) "%";
    st_metric "Error Rate" (error r) EmptyString;
    st_metric "Response Time" (response r) " ms";
    st_metric "Network Traffic" (network r) " MB/s";
    st_metric "Disk I/O" (disk r) " MB/s";
    st_metric "Active Threads" (threads r) EmptyString;
    st_button "🚀 Run AI System Analysis" ].

(** The two notices of an empty history (lines 236 and 247). *)
Definition no_history_widgets : list Widget :=
  [ st_subheader "📈 System Trend Graphs";
    st_info "Not enough data to show trends yet. Run analysis multiple times.";
    st_subheader "📜 System History";
    st_info "No historical data yet." ].

(** A table of two records that has only three of the columns. *)
Definition narrow_history : DataFrame :=
  mkFrame ["Timestamp"; "CPU"; "Memory"]
    (label_from 0
       [ [VStr "2024-03-09 07:05:59"; VInt 90; VInt 40];
         [VStr "2024-03-09 07:05:58"; VInt 50; VInt 45] ]).

(** * Properties of the rule engine *)

Lemma gtb_true (x k : Z) : (x >? k) = true <-> x > k.
Proof. rewrite Z.gtb_ltb, Z.ltb_lt. lia. Qed.

Lemma gtb_false (x k : Z) : (x >? k) = false <-> x <= k.
Proof. rewrite Z.gtb_ltb, Z.ltb_ge. lia. Qed.

(** The chain of conditional appends is the table read top to bottom. *)
Lemma root_causes_fired (r : Reading) : root_causes r = fired cause_rules r.
Proof.
  unfold root_causes, fired, cause_rules, append. cbn [filter fst snd map].
  destruct (cpu r >? 85), (memory r >? 85), (error r >? 7),
    (response r >? 400), (threads r >? 800), (network r >? 800),
    (disk r >? 400); reflexivity.
Qed.

Lemma solutions_fired (r : Reading) : solutions r = fired remediation_rules r.
Proof.
  unfold solutions, fired, remediation_rules, append. cbn [filter fst snd map].
  destruct (cpu r >? 85), (memory r >? 85), (threads r >? 800),
    (network r >? 800), (disk r >? 400); reflexivity.
Qed.

(** A text is among the fired ones exactly when a rule with a true
    condition carries it. *)
Lemma in_fired (rules : list rule) (r : Reading) (s : string) :
  In s (fired rules r) <-> exists p, In (p, s) rules /\ p r = true.
Proof.
  unfold fired. rewrite in_map_iff. split.
  - intros [[p s'] [Hs Hin]]. cbn in Hs. subst s'.
    apply filter_In in Hin. destruct Hin as [Hin Hp]. exists p. auto.
  - intros [p [Hin Hp]]. exists (p, s). split; [reflexivity|].
    apply filter_In. auto.
Qed.

Lemma fired_length (rules : list rule) (r : Reading) :
  (List.length (fired rules r) <= List.length rules)%nat.
Proof.
  unfold fired. rewrite length_map. apply filter_length_le.
Qed.

(** Which rule of a table carries a given text. *)
Ltac which_rule H :=
  cbn [In cause_rules remediation_rules] in H;
  repeat (destruct H as [H | H]);
  try contradiction; try discriminate H;
  try (injection H as H; subst).

Lemma fired_cause_iff (p : Reading -> bool) (s : string) (r : Reading) :
  In (p, s) cause_rules ->
  (forall q, In (q, s) cause_rules -> q = p) ->
  (In s (root_causes r) <-> p r = true).
Proof.
  intros Hin Huniq. rewrite root_causes_fired, in_fired. split.
  - intros [q [Hq Hr]]. apply Huniq in Hq. subst q. exact Hr.
  - intros Hr. exists p. auto.
Qed.

Lemma fired_remediation_iff (p : Reading -> bool) (s : string) (r : Reading) :
  In (p, s) remediation_rules ->
  (forall q, In (q, s) remediation_rules -> q = p) ->
  (In s (solutions r) <-> p r = true).
Proof.
  intros Hin Huniq. rewrite solutions_fired, in_fired. split.
  - intros [q [Hq Hr]]. apply Huniq in Hq. subst q. exact Hr.
  - intros Hr. exists p. auto.
Qed.

Ltac rule_iff lemma :=
  rewrite <- gtb_true;
  apply (lemma (fun r => _ r >? _));
  [ cbn [In cause_rules remediation_rules]; tauto
  | let q := fresh "q" in let H := fresh "H" in
    intros q H; which_rule H; reflexivity ].

(** C1: for every reading, each of the seven root-cause labels is in the
    list exactly when its strict threshold holds, and the list is the fixed
    table of seven rules filtered by the conditions that hold, so the labels
    that fire keep the order of the table whatever subset fires. *)
Theorem root_causes_iff_thresholds (r : Reading) :
  root_causes r = fired cause_rules r
  /\ (In "CPU Saturation Detected" (root_causes r) <-> cpu r > 85)
  /\ (In "High Memory Utilization" (root_causes r) <-> memory r > 85)
  /\ (In "Error Spike Detected" (root_causes r) <-> error r > 7)
  /\ (In "High Response Latency" (root_causes r) <-> response r > 400)
  /\ (In "High Thread Count" (root_causes r) <-> threads r > 800)
  /\ (In "High Network Traffic" (root_causes r) <-> network r > 800)
  /\ (In "Heavy Disk I/O Activity" (root_causes r) <-> disk r > 400).
Proof.
  split; [apply root_causes_fired|].
  repeat split; rule_iff fired_cause_iff.
Qed.

(** C2: for every reading, the remediation list holds exactly the texts of
    the five remediation rules whose condition holds, in the order of the
    table; the error rate and the response time have no rule, so the list
    does not depend on them. *)
Theorem solutions_iff_thresholds (r : Reading) :
  solutions r = fired remediation_rules r
  /\ (In "Scale CPU resources." (solutions r) <-> cpu r > 85)
  /\ (In "Investigate memory leaks." (solutions r) <-> memory r > 85)
  /\ (In "Check for thread leaks or runaway processes." (solutions r)
      <-> threads r > 800)
  /\ (In "Analyze unusual network traffic patterns." (solutions r)
      <-> network r > 800)
  /\ (In "Optimize disk-intensive operations." (solutions r) <-> disk r > 400)
  /\ (forall s, In s (solutions r) ->
        In s [ "Scale CPU resources."; "Investigate memory leaks.";
               "Check for thread leaks or runaway processes.";
               "Analyze unusual network traffic patterns.";
               "Optimize disk-intensive operations." ])
  /\ (forall e p : Z,
        solutions
          (mkReading (cpu r) (memory r) e p (threads r) (network r) (disk r))
        = solutions r).
Proof.
  split; [apply solutions_fired|].
  do 5 (split; [rule_iff fired_remediation_iff|]).
  split.
  - intros s Hs. rewrite solutions_fired, in_fired in Hs.
    destruct Hs as [p [Hin _]]. which_rule Hin; cbn [In]; tauto.
  - intros e p. reflexivity.
Qed.

(** C9: a reading with every field at or below its threshold has no root
    cause and no remediation. *)
Theorem normal_reading_no_findings (r : Reading) :
  cpu r <= 85 -> memory r <= 85 -> error r <= 7 -> response r <= 400 ->
  threads r <= 800 -> network r <= 800 -> disk r <= 400 ->
  root_causes r = [] /\ solutions r = [].
Proof.
  intros Hc Hm He Hr Ht Hn Hd.
  apply gtb_false in Hc, Hm, He, Hr, Ht, Hn, Hd.
  unfold root_causes, solutions.
  rewrite Hc, Hm, He, Hr, Ht, Hn, Hd. split; reflexivity.
Qed.

Lemma normal_reading_no_findings_witness :
  let r := mkReading 85 85 7 400 800 800 400 in
  (cpu r <= 85 /\ memory r <= 85 /\ error r <= 7 /\ response r <= 400
   /\ threads r <= 800 /\ network r <= 800 /\ disk r <= 400)
  /\ root_causes r = [] /\ solutions r = [].
Proof.
  split; [cbn; lia|].
  apply (normal_reading_no_findings (mkReading 85 85 7 400 800 800 400));
    cbn; lia.
Defined.

(** C10: every remediation in the list comes from a rule whose condition
    is also the condition of a root-cause rule, and the label of that rule
    is in the root-cause list; so there are at most as many remediations as
    root causes, and none when there is no root cause. *)
Theorem remediations_follow_causes (r : Reading) :
  (forall s, In s (solutions r) ->
     exists p c, In (p, s) remediation_rules /\ In (p, c) cause_rules
                 /\ p r = true /\ In c (root_causes r))
  /\ (List.length (solutions r) <= List.length (root_causes r))%nat
  /\ (root_causes r = [] -> solutions r = []).
Proof.
  split; [|split].
  - intros s Hs. rewrite solutions_fired, in_fired in Hs.
    destruct Hs as [p [Hin Hp]].
    assert (Hc : exists c, In (p, c) cause_rules).
    { which_rule Hin; eexists; cbn [In cause_rules]; tauto. }
    destruct Hc as [c Hc]. exists p, c. repeat split; auto.
    rewrite root_causes_fired, in_fired. exists p. auto.
  - unfold root_causes, solutions, append.
    destruct (cpu r >? 85), (memory r >? 85), (error r >? 7),
      (response r >? 400), (threads r >? 800), (network r >? 800),
      (disk r >? 400); cbn; lia.
  - unfold root_causes, solutions, append.
    destruct (cpu r >? 85), (memory r >? 85), (error r >? 7),
      (response r >? 400), (threads r >? 800), (network r >? 800),
      (disk r >? 400); cbn; intros H; try discriminate H; reflexivity.
Qed.

(** * The script monad: calls that cannot raise *)

Lemma st_ok (x : Widget) (w : World) :
  st x w = Ok tt (with_page w (page w ++ [x])).
Proof. reflexivity. Qed.

Lemma bind_ok {A B : Type} (c : M A) (k : A -> M B) (w w' : World) (a : A) :
  c w = Ok a w' -> bind c k w = k a w'.
Proof. intros H. unfold bind. rewrite H. reflexivity. Qed.

Lemma bind_raise {A B : Type} (c : M A) (k : A -> M B) (w w' : World) (e : exn) :
  c w = Raise e w' -> bind c k w = Raise e w'.
Proof. intros H. unfold bind. rewrite H. reflexivity. Qed.

(** A loop that only draws extends the page by one widget per element. *)
Lemma for_each_st {A : Type} (f : A -> Widget) (l : list A) (w : World) :
  for_each l (fun x => st (f x)) w = Ok tt (with_page w (page w ++ map f l)).
Proof.
  revert w. induction l as [|x l IH]; intros w.
  - cbn. rewrite app_nil_r. destruct w; reflexivity.
  - cbn [for_each map]. unfold bind. rewrite st_ok, IH. cbn.
    rewrite <- app_assoc. reflexivity.
Qed.

Lemma clamp_gtb (lo hi k x : Z) :
  lo <= k -> k < hi -> (clamp lo hi x >? k) = (x >? k).
Proof.
  intros Hlo Hhi. unfold clamp.
  destruct (x >? k) eqn:E.
  - apply gtb_true in E. apply gtb_true. lia.
  - apply gtb_false in E. apply gtb_false. lia.
Qed.

Lemma with_page_app (w : World) (a b : list Widget) :
  with_page (with_page w (page w ++ a)) (page (with_page w (page w ++ a)) ++ b)
  = with_page w (page w ++ a ++ b).
Proof. unfold with_page. cbn. rewrite <- app_assoc. reflexivity. Qed.

Lemma diagnostic_layer_ok (r : Reading) (w : World) :
  diagnostic_layer r w
  = Ok (root_causes r) (with_page w (page w ++ diagnostic_widgets r)).
Proof.
  unfold diagnostic_layer, diagnostic_widgets, bind. rewrite st_ok.
  destruct (Z.of_nat (List.length (root_causes r)) =? 0).
  - rewrite st_ok, with_page_app. reflexivity.
  - rewrite for_each_st, with_page_app. reflexivity.
Qed.

Lemma prescriptive_layer_ok (r : Reading) (w : World) :
  prescriptive_layer r w
  = Ok (solutions r) (with_page w (page w ++ prescriptive_widgets r)).
Proof.
  unfold prescriptive_layer, prescriptive_widgets, bind. rewrite st_ok.
  destruct (Z.of_nat (List.length (solutions r)) =? 0).
  - rewrite st_ok, with_page_app. reflexivity.
  - rewrite for_each_st, with_page_app. reflexivity.
Qed.

(** C8: for every reading, with no bound on any field, the diagnostic and
    the prescriptive layer run to their end without raising and return the
    texts of the rules whose threshold the reading exceeds; clamping the
    reading to the slider ranges first would change neither list. *)
Theorem rule_engine_accepts_any_reading (r : Reading) (w : World) :
  (exists w1 w2,
      diagnostic_layer r w = Ok (fired cause_rules r) w1
      /\ prescriptive_layer r w1 = Ok (fired remediation_rules r) w2
      /\ system_log_csv w2 = system_log_csv w)
  /\ root_causes (clamp_to_sliders r) = root_causes r
  /\ solutions (clamp_to_sliders r) = solutions r.
Proof.
  split.
  - rewrite <- root_causes_fired, <- solutions_fired.
    eexists. eexists. split; [apply diagnostic_layer_ok|].
    split; [apply prescriptive_layer_ok|]. reflexivity.
  - unfold root_causes, solutions, clamp_to_sliders. cbn [cpu memory error
      response threads network disk].
    rewrite !clamp_gtb by lia. split; reflexivity.
Qed.

(** * Start-up: the classifier *)

Lemma page_config_ok (w : World) :
  page_config w = Ok tt (with_page w (page w ++ banner)).
Proof.
  unfold page_config, bind. rewrite !st_ok. unfold with_page. cbn.
  rewrite <- !app_assoc. reflexivity.
Qed.

Lemma joblib_load_fails (w : World) :
  loadable w = false ->
  exists e, joblib_load w = Raise e w
            /\ (e = FileNotFoundError model_file
                \/ e = UnpicklingError model_file).
Proof.
  unfold loadable, joblib_load.
  destruct (predictive_model_pkl w) as [[m|]|]; intros H; try discriminate H.
  - exists (UnpicklingError model_file). auto.
  - exists (FileNotFoundError model_file). auto.
Qed.

(** C7: when the model file is absent or does not unpickle, every run of
    the script ends in the exception of [joblib.load], whatever the
    operator's inputs are; the page then shows the banner only (no slider,
    no button, no prediction) and the history file is as it was. *)
Theorem model_load_failure_is_fatal (s : Session) (w : World) :
  loadable w = false ->
  exists e,
    app s w = Raise e (with_page w (page w ++ banner))
    /\ (e = FileNotFoundError model_file \/ e = UnpicklingError model_file)
    /\ existsb is_input banner = false
    /\ (forall s', app s' w = app s w).
Proof.
  intros H.
  assert (H' : loadable (with_page w (page w ++ banner)) = false) by exact H.
  destruct (joblib_load_fails _ H') as [e [He Hkind]].
  assert (Hrun : forall s0, app s0 w = Raise e (with_page w (page w ++ banner))).
  { intros s0. unfold app.
    rewrite (bind_ok _ _ _ _ _ (page_config_ok w)).
    apply bind_raise. exact He. }
  exists e. repeat split; auto.
  intros s'. rewrite !Hrun. reflexivity.
Qed.

Lemma model_load_failure_is_fatal_witness :
  loadable (mkWorld None None []) = false
  /\ exists e,
       app (mkSession (mkReading 90 50 1 100 200 50 20) true
              (mkDatetime 2024 3 9 7 5 59))
           (mkWorld None None [])
       = Raise e (with_page (mkWorld None None []) ([] ++ banner))
       /\ (e = FileNotFoundError model_file \/ e = UnpicklingError model_file)
       /\ existsb is_input banner = false
       /\ (forall s',
             app s' (mkWorld None None [])
             = app (mkSession (mkReading 90 50 1 100 200 50 20) true
                      (mkDatetime 2024 3 9 7 5 59))
                   (mkWorld None None [])).
Proof.
  split; [reflexivity|].
  apply (model_load_failure_is_fatal
           (mkSession (mkReading 90 50 1 100 200 50 20) true
              (mkDatetime 2024 3 9 7 5 59))
           (mkWorld None None [])).
  reflexivity.
Defined.

(** * The history store *)

Lemma record_of_cells (r : HistoryRecord) : record_of (cells_of r) = Some r.
Proof. destruct r; reflexivity. Qed.

Lemma label_from_cells (i : Z) (lines : list (list cell)) :
  map snd (label_from i lines) = lines.
Proof.
  revert i. induction lines as [|x l IH]; intros i; cbn; [|rewrite IH];
    reflexivity.
Qed.

Lemma label_from_length (i : Z) (lines : list (list cell)) :
  List.length (label_from i lines) = List.length lines.
Proof.
  rewrite <- (label_from_cells i lines) at 2. rewrite length_map. reflexivity.
Qed.

Lemma has_column_in (c : string) (cols : list string) :
  has_column c cols = true <-> In c cols.
Proof.
  unfold has_column. rewrite existsb_exists. split.
  - intros [x [Hin Heq]]. apply String.eqb_eq in Heq. subst. exact Hin.
  - intros Hin. exists c. split; [exact Hin | apply String.eqb_refl].
Qed.

(** No column of [a] is new to [a]. *)
Lemma no_new_columns (a b : list string) :
  incl b a -> filter (fun c => negb (has_column c a)) b = [].
Proof.
  induction b as [|c b IH]; intros Hincl; [reflexivity|]. cbn.
  assert (Hc : has_column c a = true).
  { apply has_column_in. apply Hincl. left. reflexivity. }
  rewrite Hc. cbn. apply IH. intros x Hx. apply Hincl. right. exact Hx.
Qed.

Lemma union_columns_same (a : list string) : union_columns a a = a.
Proof.
  unfold union_columns. rewrite no_new_columns by apply incl_refl.
  apply app_nil_r.
Qed.

(** Laying a full row out under its own, distinct columns changes nothing. *)
Lemma reindex_same (cols : list string) (cells : list cell) :
  NoDup cols -> List.length cells = List.length cols ->
  reindex cols cols cells = cells.
Proof.
  unfold reindex. revert cells.
  induction cols as [|k cols IH]; intros cells Hnd Hlen.
  - destruct cells; [reflexivity | discriminate Hlen].
  - destruct cells as [|v cells]; [discriminate Hlen|].
    inversion Hnd as [|k' cols' Hk Hnd']; subst.
    cbn [map at_column]. rewrite String.eqb_refl. cbn [cell_or_nan]. f_equal.
    transitivity (map (fun c => cell_or_nan (at_column c cols cells)) cols).
    + apply map_ext_in. intros c Hc.
      destruct (String.eqb_spec k c) as [->|_]; [contradiction | reflexivity].
    + apply IH; [exact Hnd' | cbn in Hlen; lia].
Qed.

Lemma history_columns_nodup : NoDup history_columns.
Proof.
  unfold history_columns.
  repeat (constructor;
          [cbn [In]; intros H;
           repeat (destruct H as [H|H]; [discriminate H|]); exact H|]).
  constructor.
Qed.

(** Appending to a table of the ten columns keeps every line as it is and
    puts the new one last. *)
Lemma concat_new_log (lines : list (list cell)) (r : HistoryRecord) :
  aligned history_columns lines ->
  concat (mkFrame history_columns (label_from 0 lines)) (new_log r)
  = mkFrame history_columns (label_from 0 (lines ++ [cells_of r])).
Proof.
  intros Hal. unfold concat, new_log. cbn [columns rows].
  rewrite union_columns_same. f_equal. f_equal.
  change (map (fun r0 : row => reindex history_columns history_columns (snd r0))
            [(VInt 0, cells_of r)]) with [cells_of r].
  f_equal.
  rewrite <- (label_from_cells 0 lines) at 2.
  apply map_ext_in. intros [i cells] Hin. cbn [snd].
  apply reindex_same; [apply history_columns_nodup|].
  assert (Hc : In cells lines).
  { rewrite <- (label_from_cells 0 lines). apply in_map_iff.
    exists (i, cells). auto. }
  unfold aligned in Hal. rewrite Forall_forall in Hal. apply Hal. exact Hc.
Qed.

Lemma load_history_absent (w : World) :
  system_log_csv w = None ->
  load_history w = Ok (mkFrame history_columns []) w.
Proof.
  intros H. unfold load_history, bind, os_path_exists. rewrite H. reflexivity.
Qed.

Lemma load_history_table (w : World) (header : list string)
    (lines : list (list cell)) :
  system_log_csv w = Some (table header lines) ->
  load_history w = Ok (mkFrame header (label_from 0 lines)) w.
Proof.
  intros H. unfold load_history, bind, os_path_exists, read_csv.
  rewrite H. cbn. rewrite H. reflexivity.
Qed.

Lemma load_history_store (w : World) :
  history_store (system_log_csv w) ->
  load_history w
  = Ok (mkFrame history_columns (label_from 0 (stored (system_log_csv w)))) w
  /\ aligned history_columns (stored (system_log_csv w)).
Proof.
  intros H. destruct (system_log_csv w) as [[|header lines]|] eqn:E;
    cbn in H |- *.
  - contradiction.
  - destruct H as [-> Hal]. split; [|exact Hal].
    apply load_history_table. exact E.
  - split; [|constructor]. apply load_history_absent. exact E.
Qed.

(** C5, as the specification counts: the table that [load] makes when
    there is no file does not have nine columns. *)
Lemma load_absent_not_nine_columns :
  exists h,
    load_history (mkWorld None None []) = Ok h (mkWorld None None [])
    /\ rows h = []
    /\ List.length (columns h) <> 9%nat.
Proof.
  exists (mkFrame history_columns []).
  split; [reflexivity|]. split; [reflexivity|]. cbn. discriminate.
Qed.

(** C5: when there is no history file, loading does not raise and gives a
    table with no row and the ten columns Timestamp, CPU, Memory, Error,
    Response, Threads, Network_Traffic, Disk_IO, Crash_Probability,
    Failure_Next_5min, in this order; the world is left as it was. *)
Theorem load_absent_file (w : World) :
  system_log_csv w = None ->
  exists h,
    load_history w = Ok h w
    /\ rows h = []
    /\ columns h = [ "Timestamp"; "CPU"; "Memory"; "Error"; "Response";
                     "Threads"; "Network_Traffic"; "Disk_IO";
                     "Crash_Probability"; "Failure_Next_5min" ]
    /\ List.length (columns h) = 10%nat.
Proof.
  intros H. exists (mkFrame history_columns []).
  split; [apply load_history_absent; exact H|].
  repeat split.
Qed.

Lemma load_absent_file_witness :
  system_log_csv (mkWorld None None []) = None
  /\ exists h,
       load_history (mkWorld None None []) = Ok h (mkWorld None None [])
       /\ rows h = []
       /\ columns h = [ "Timestamp"; "CPU"; "Memory"; "Error"; "Response";
                        "Threads"; "Network_Traffic"; "Disk_IO";
                        "Crash_Probability"; "Failure_Next_5min" ]
       /\ List.length (columns h) = 10%nat.
Proof.
  split; [reflexivity|].
  apply (load_absent_file (mkWorld None None [])). reflexivity.
Defined.

(** * Time order *)

Lemma lex_leb_total (a b : list Z) : lex_leb a b = false -> lex_leb b a = true.
Proof.
  revert b. induction a as [|x a IH]; intros [|y b]; cbn; try discriminate.
  destruct (Z.ltb_spec x y); [discriminate|].
  destruct (Z.eqb_spec x y) as [->|Hne].
  - rewrite Z.ltb_irrefl, Z.eqb_refl. apply IH.
  - intros _. destruct (Z.ltb_spec y x); [reflexivity | lia].
Qed.

Lemma lex_leb_trans (a b c : list Z) :
  List.length a = List.length b -> List.length b = List.length c ->
  lex_leb a b = true -> lex_leb b c = true -> lex_leb a c = true.
Proof.
  revert b c. induction a as [|x a IH]; intros [|y b] [|z c];
    cbn; try discriminate; try reflexivity.
  intros Hab Hbc.
  destruct (Z.ltb_spec x y), (Z.ltb_spec y z), (Z.ltb_spec x z);
    try reflexivity; try lia;
    destruct (Z.eqb_spec x y), (Z.eqb_spec y z), (Z.eqb_spec x z);
    try discriminate; try lia.
  apply IH; lia.
Qed.

Lemma time_leb_total (a b : option datetime) :
  time_leb a b = false -> time_leb b a = true.
Proof.
  destruct a as [x|], b as [y|]; cbn [time_leb]; try discriminate;
    try reflexivity.
  apply lex_leb_total.
Qed.

Lemma time_le_trans (a b c : option datetime) :
  time_le a b -> time_le b c -> time_le a c.
Proof.
  unfold time_le.
  destruct a as [x|], b as [y|], c as [z|]; cbn [time_leb]; try discriminate;
    try reflexivity.
  apply lex_leb_trans; reflexivity.
Qed.

(** ** Sorting by insertion *)

Section Sorting.

Variable key : row -> option datetime.

Lemma key_le_trans (a b c : row) :
  key_le key a b -> key_le key b c -> key_le key a c.
Proof. apply time_le_trans. Qed.

Lemma insert_row_perm (r : row) (l : list row) :
  Permutation (r :: l) (insert_row key r l).
Proof.
  induction l as [|x l IH]; cbn; [apply Permutation_refl|].
  destruct (time_leb (key r) (key x)); [apply Permutation_refl|].
  eapply perm_trans; [apply perm_swap|]. apply perm_skip. exact IH.
Qed.

Lemma sort_rows_perm (l : list row) : Permutation l (sort_rows key l).
Proof.
  induction l as [|r l IH]; cbn; [constructor|].
  eapply perm_trans; [apply perm_skip; exact IH|]. apply insert_row_perm.
Qed.

Lemma insert_row_sorted (r : row) (l : list row) :
  StronglySorted (key_le key) l ->
  StronglySorted (key_le key) (insert_row key r l).
Proof.
  induction l as [|x l IH]; intros Hs; cbn.
  - repeat constructor.
  - inversion Hs as [|x' l' Hl Hx]; subst.
    destruct (time_leb (key r) (key x)) eqn:E.
    + constructor; [exact Hs|]. constructor; [exact E|].
      eapply Forall_impl; [|exact Hx]. intros y Hy.
      eapply key_le_trans; [exact E | exact Hy].
    + constructor; [apply IH; exact Hl|].
      eapply Permutation_Forall; [apply insert_row_perm|].
      constructor; [|exact Hx]. apply time_leb_total. exact E.
Qed.

Lemma sort_rows_sorted (l : list row) :
  StronglySorted (key_le key) (sort_rows key l).
Proof.
  induction l as [|r l IH]; cbn; [constructor|].
  apply insert_row_sorted. exact IH.
Qed.

End Sorting.

Lemma strongly_sorted_map {A B : Type} (R : A -> A -> Prop)
    (R' : B -> B -> Prop) (g : A -> B) (l : list A) :
  (forall a b, R a b -> R' (g a) (g b)) ->
  StronglySorted R l -> StronglySorted R' (map g l).
Proof.
  intros Hg Hs. induction Hs as [|a l Hl IH Ha]; cbn; constructor.
  - exact IH.
  - apply Forall_map. eapply Forall_impl; [|exact Ha]. intros b. apply Hg.
Qed.

(** * The history in time order *)

Lemma to_datetime_cell_ok (v : cell) (w : World) :
  converts v = true -> to_datetime_cell v w = Ok (VTime (stamp v)) w.
Proof.
  destruct v as [z|f|s|t|]; cbn; try discriminate; try reflexivity.
  destruct (parse_datetime s); [reflexivity | discriminate].
Qed.

Lemma to_datetime_ok (s : list (cell * cell)) (w : World) :
  forallb (fun p => converts (snd p)) s = true ->
  to_datetime s w = Ok (map (fun p => (fst p, VTime (stamp (snd p)))) s) w.
Proof.
  induction s as [|[i v] s IH]; intros H; [reflexivity|].
  cbn in H. apply andb_prop in H. destruct H as [Hv Hs].
  cbn [to_datetime map fst snd]. unfold bind.
  rewrite (to_datetime_cell_ok v w Hv), (IH Hs). reflexivity.
Qed.

Lemma forallb_over_map {A B : Type} (f : B -> bool) (g : A -> B) (l : list A) :
  forallb f (map g l) = forallb (fun x => f (g x)) l.
Proof.
  induction l as [|x l IH]; [reflexivity|]. cbn. rewrite IH. reflexivity.
Qed.

Lemma assign_map (c : string) (cols : list string) (rs : list row)
    (f : row -> cell) :
  assign c cols rs (map (fun r => (fst r, f r)) rs)
  = map (fun r => (fst r, set_column c cols (f r) (snd r))) rs.
Proof.
  induction rs as [|r rs IH]; [reflexivity|]. cbn. rewrite IH. reflexivity.
Qed.

Lemma drop_set_column (c : string) (cols : list string) (v : cell)
    (cells : list cell) :
  drop_column c cols (set_column c cols v cells) = drop_column c cols cells.
Proof.
  revert cells. induction cols as [|k cols IH]; intros [|x cells];
    try reflexivity.
  cbn [set_column]. destruct (String.eqb k c) eqn:E;
    cbn [drop_column]; rewrite E; [reflexivity|].
  rewrite IH. reflexivity.
Qed.

(** The date under a column after a date was stored there: the stored one
    when the row has a cell under the column, none otherwise. *)
Lemma time_under_set (c : string) (cols : list string) (t : option datetime)
    (cells : list cell) :
  as_time (cell_or_nan (at_column c cols (set_column c cols (VTime t) cells)))
  = match at_column c cols cells with Some _ => t | None => None end.
Proof.
  revert cells. induction cols as [|k cols IH]; intros [|x cells];
    try reflexivity.
  cbn [set_column at_column]. destruct (String.eqb k c) eqn:E;
    cbn [at_column]; rewrite ?E; [reflexivity|].
  apply IH.
Qed.

Lemma time_under_stamp (c : string) (cols : list string) (r : row) :
  time_under c cols
    (fst r, set_column c cols (VTime (stamp (under c cols r))) (snd r))
  = stamp (under c cols r).
Proof.
  unfold time_under, under. cbn [snd]. rewrite time_under_set.
  destruct (at_column c cols (snd r)); reflexivity.
Qed.

Lemma ordered_by_time_ok (history : DataFrame) (w : World) :
  has_column "Timestamp" (columns history) = true ->
  timestamps_convert history = true ->
  ordered_by_time history w = Ok (in_time_order history) w.
Proof.
  intros Hcol Hconv. unfold ordered_by_time, bind at 1, getitem.
  rewrite Hcol. cbn [ret]. unfold bind at 1.
  rewrite to_datetime_ok.
  2:{ rewrite forallb_over_map. exact Hconv. }
  rewrite map_map. cbn [fst snd].
  unfold setitem.
  rewrite (assign_map "Timestamp" (columns history) (rows history)
             (fun r => VTime (stamp (cell_or_nan
                (at_column "Timestamp" (columns history) (snd r)))))).
  unfold bind, sort_values. cbn [columns]. rewrite Hcol. cbn [ret].
  unfold set_index. cbn [columns rows]. rewrite Hcol. reflexivity.
Qed.

Lemma in_time_order_sorted (history : DataFrame) :
  StronglySorted (fun a b => time_le (as_time (fst a)) (as_time (fst b)))
    (rows (in_time_order history)).
Proof.
  unfold in_time_order. cbn [rows].
  eapply strongly_sorted_map; [|apply sort_rows_sorted].
  intros a b H. exact H.
Qed.

Lemma in_time_order_perm (history : DataFrame) :
  Permutation
    (map (fun r => (stamp (under "Timestamp" (columns history) r),
                    drop_column "Timestamp" (columns history) (snd r)))
       (rows history))
    (map (fun r => (as_time (fst r), snd r)) (rows (in_time_order history))).
Proof.
  unfold in_time_order. cbn [rows]. rewrite map_map. cbn [fst snd].
  eapply perm_trans;
    [|apply Permutation_map; apply sort_rows_perm].
  unfold converted. rewrite map_map. cbn [snd].
  apply Permutation_refl'. apply map_ext. intros r.
  rewrite drop_set_column. f_equal.
  symmetry. apply (time_under_stamp "Timestamp" (columns history) r).
Qed.

(** ** The charts *)

Lemma series_index (history : DataFrame) (c : string) :
  map fst (series history c) = map fst (rows history).
Proof. unfold series. rewrite map_map. reflexivity. Qed.

Lemma line_chart_ok (history : DataFrame) (c : string) (w : World) :
  has_column c (columns history) = true ->
  line_chart history c w
  = Ok tt (with_page w (page w ++ [st_line_chart (series history c)])).
Proof.
  intros H. unfold line_chart, bind, getitem. rewrite H. reflexivity.
Qed.

(** One drawing step, on a world whose page is written out. *)
Lemma with_page_id (w : World) : with_page w (page w) = w.
Proof. destruct w; reflexivity. Qed.

Lemma bind_st {B : Type} (x : Widget) (k : unit -> M B) (w : World)
    (p : list Widget) :
  bind (st x) k (with_page w p) = k tt (with_page w (p ++ [x])).
Proof. reflexivity. Qed.

Lemma bind_line_chart {B : Type} (history : DataFrame) (c : string)
    (k : unit -> M B) (w : World) (p : list Widget) :
  has_column c (columns history) = true ->
  bind (line_chart history c) k (with_page w p)
  = k tt (with_page w (p ++ [st_line_chart (series history c)])).
Proof.
  intros H. unfold line_chart, getitem. rewrite H. reflexivity.
Qed.

Lemma len_gtb_1 (history : DataFrame) :
  (1 < List.length (rows history))%nat -> (len history >? 1) = true.
Proof. intros H. unfold len. apply gtb_true. lia. Qed.

Lemma len_leb_1 (history : DataFrame) :
  (List.length (rows history) <= 1)%nat -> (len history >? 1) = false.
Proof. intros H. unfold len. apply gtb_false. lia. Qed.

Lemma trend_section_ok (history : DataFrame) (w : World) :
  columns history = history_columns ->
  timestamps_convert history = true ->
  (1 < List.length (rows history))%nat ->
  trend_section history w
  = Ok (in_time_order history)
      (with_page w
         (page w ++ st_subheader "📈 System Trend Graphs"
                    :: trend_widgets (in_time_order history))).
Proof.
  intros Hcols Hconv Hlen. unfold trend_section.
  rewrite <- (with_page_id w) at 1. rewrite bind_st.
  rewrite (len_gtb_1 history Hlen).
  assert (Hts : has_column "Timestamp" (columns history) = true)
    by (rewrite Hcols; reflexivity).
  rewrite (bind_ok _ _ _ _ _ (ordered_by_time_ok history _ Hts Hconv)).
  assert (Hc : columns (in_time_order history)
               = remove_name "Timestamp" history_columns)
    by (unfold in_time_order; rewrite Hcols; reflexivity).
  repeat first
    [ rewrite bind_st
    | rewrite bind_line_chart by (rewrite Hc; reflexivity) ].
  unfold ret, trend_widgets. rewrite <- !app_assoc. reflexivity.
Qed.

Lemma trend_section_short (history : DataFrame) (w : World) :
  (List.length (rows history) <= 1)%nat ->
  trend_section history w
  = Ok history
      (with_page w
         (page w ++
          [ st_subheader "📈 System Trend Graphs";
            st_info "Not enough data to show trends yet. Run analysis multiple times." ])).
Proof.
  intros Hlen. unfold trend_section.
  rewrite <- (with_page_id w) at 1. rewrite bind_st.
  rewrite (len_leb_1 history Hlen). rewrite bind_st.
  unfold ret. rewrite <- app_assoc. reflexivity.
Qed.

Lemma trend_widgets_index (history : DataFrame) (s : list (cell * cell)) :
  In (st_line_chart s) (trend_widgets history) ->
  map fst s = map fst (rows history).
Proof.
  unfold trend_widgets. cbn [In]. intros H.
  repeat (destruct H as [H|H];
          [try discriminate H; injection H as <-; apply series_index|]).
  contradiction.
Qed.

(** C6: a history of the program's ten columns whose timestamps are dates
    comes out of lines 196-198 in non-decreasing time order ([NaT] last),
    with the same records, whatever order they were appended in; the charts
    of the trend section are drawn from that sorted table, and with fewer
    than two records no chart is drawn. *)
Theorem ordered_by_time_sorted (history : DataFrame) (w : World) :
  columns history = history_columns ->
  timestamps_convert history = true ->
  exists sorted,
    ordered_by_time history w = Ok sorted w
    /\ StronglySorted
         (fun a b => time_leb (as_time (fst a)) (as_time (fst b)) = true)
         (rows sorted)
    /\ Permutation
         (map (fun r => (stamp (under "Timestamp" (columns history) r),
                         drop_column "Timestamp" (columns history) (snd r)))
            (rows history))
         (map (fun r => (as_time (fst r), snd r)) (rows sorted))
    /\ ((1 < List.length (rows history))%nat ->
        trend_section history w
        = Ok sorted
            (with_page w
               (page w ++ st_subheader "📈 System Trend Graphs"
                          :: trend_widgets sorted))
        /\ forall s, In (st_line_chart s) (trend_widgets sorted) ->
                     map fst s = map fst (rows sorted))
    /\ ((List.length (rows history) <= 1)%nat ->
        exists w', trend_section history w = Ok history w'
                   /\ forall s, In (st_line_chart s) (page w') ->
                                In (st_line_chart s) (page w)).
Proof.
  intros Hcols Hconv. exists (in_time_order history).
  assert (Hts : has_column "Timestamp" (columns history) = true)
    by (rewrite Hcols; reflexivity).
  split; [apply ordered_by_time_ok; assumption|].
  split; [apply in_time_order_sorted|].
  split; [apply in_time_order_perm|].
  split.
  - intros Hlen. split; [apply trend_section_ok; assumption|].
    apply trend_widgets_index.
  - intros Hlen. eexists. split; [apply trend_section_short; exact Hlen|].
    intros s Hin. cbn [page with_page] in Hin.
    apply in_app_or in Hin. destruct Hin as [Hin|Hin]; [exact Hin|].
    cbn [In] in Hin. destruct Hin as [Hin|[Hin|Hin]];
      [discriminate Hin | discriminate Hin | contradiction].
Qed.

Lemma ordered_by_time_sorted_witness :
  (columns skewed_history = history_columns
   /\ timestamps_convert skewed_history = true)
  /\ exists sorted,
       ordered_by_time skewed_history (mkWorld None None []) = Ok sorted (mkWorld None None [])
       /\ StronglySorted
            (fun a b => time_leb (as_time (fst a)) (as_time (fst b)) = true)
            (rows sorted)
       /\ Permutation
            (map (fun r => (stamp (under "Timestamp" (columns skewed_history) r),
                            drop_column "Timestamp" (columns skewed_history)
                              (snd r)))
               (rows skewed_history))
            (map (fun r => (as_time (fst r), snd r)) (rows sorted))
       /\ ((1 < List.length (rows skewed_history))%nat ->
           trend_section skewed_history (mkWorld None None [])
           = Ok sorted
               (with_page (mkWorld None None [])
                  (page (mkWorld None None [])
                   ++ st_subheader "📈 System Trend Graphs"
                      :: trend_widgets sorted))
           /\ forall s, In (st_line_chart s) (trend_widgets sorted) ->
                        map fst s = map fst (rows sorted))
       /\ ((List.length (rows skewed_history) <= 1)%nat ->
           exists w', trend_section skewed_history (mkWorld None None [])
                      = Ok skewed_history w'
                      /\ forall s, In (st_line_chart s) (page w') ->
                                   In (st_line_chart s)
                                     (page (mkWorld None None []))).
Proof.
  split; [split; reflexivity|].
  apply (ordered_by_time_sorted skewed_history (mkWorld None None []));
    reflexivity.
Defined.

(** The run on the three records: the oldest first. *)
Example ordered_by_time_skewed :
  option_map (fun h => map fst (rows h))
    (match ordered_by_time skewed_history (mkWorld None None []) with
     | Ok h _ => Some h
     | Raise _ _ => None
     end)
  = Some [ VTime (Some (mkDatetime 2023 12 31 23 59 59));
           VTime (Some (mkDatetime 2024 3 9 7 5 58));
           VTime (Some (mkDatetime 2024 3 9 7 5 59)) ].
Proof. reflexivity. Qed.

(** * A history file with columns missing *)

(** C4, as the specification states it: with a file that lacks eight of the
    columns, loading raises nothing and returns the two columns; the whole
    run raises nothing either, and a run with the button pressed writes the
    old line back filled up with missing values. *)
Lemma load_partial_schema_no_error :
  has_column "Memory" ["Timestamp"; "CPU"] = false
  /\ load_history partial_world
     = Ok (mkFrame ["Timestamp"; "CPU"]
             [(VInt 0, [VStr "2024-03-09 07:05:59"; VInt 90])])
          partial_world
  /\ raised (app idle_session partial_world) = None
  /\ final_log (app idle_session partial_world) = Some partial_log
  /\ raised (app pressed_session partial_world) = None
  /\ final_log (app pressed_session partial_world)
     = Some (table history_columns
               [ [ VStr "2024-03-09 07:05:59"; VInt 90; NaN; NaN; NaN; NaN;
                   NaN; NaN; NaN; NaN ];
                 [ VStr "2024-03-09 07:06:10"; VInt 50; VInt 50; VInt 1;
                   VInt 200; VInt 200; VInt 100; VInt 50; VFloat 25;
                   VStr "NO" ] ]).
Proof. repeat split; vm_compute; reflexivity. Qed.

Lemma getitem_missing (history : DataFrame) (c : string) (w : World) :
  has_column c (columns history) = false ->
  getitem history c w = Raise (KeyError c) w.
Proof. intros H. unfold getitem. rewrite H. reflexivity. Qed.

(** C4, amended: a history file with a header loads as the table it holds,
    with the columns it has, whatever they are: no column is looked for
    and nothing is raised.  A missing Timestamp column is reported, as a
    [KeyError] that names it, only by the trend section and only when the
    table has more than one row. *)
Theorem load_accepts_any_header (w : World) (header : list string)
    (lines : list (list cell)) :
  system_log_csv w = Some (table header lines) ->
  load_history w = Ok (mkFrame header (label_from 0 lines)) w
  /\ (has_column "Timestamp" header = false ->
      (1 < List.length lines)%nat ->
      forall w0,
        trend_section (mkFrame header (label_from 0 lines)) w0
        = Raise (KeyError "Timestamp")
            (with_page w0 (page w0 ++ [st_subheader "📈 System Trend Graphs"])))
  /\ (has_column "Timestamp" header = false ->
      (List.length lines <= 1)%nat ->
      forall w0,
        raised (trend_section (mkFrame header (label_from 0 lines)) w0) = None).
Proof.
  intros H. split; [apply load_history_table; exact H|]. split.
  - intros Hcol Hlen w0. unfold trend_section.
    rewrite <- (with_page_id w0) at 1. rewrite bind_st.
    rewrite len_gtb_1 by (cbn [rows]; rewrite label_from_length; exact Hlen).
    unfold ordered_by_time. do 2 apply bind_raise.
    apply getitem_missing. exact Hcol.
  - intros _ Hlen w0. rewrite trend_section_short; [reflexivity|].
    cbn [rows]. rewrite label_from_length. exact Hlen.
Qed.

Lemma load_accepts_any_header_witness :
  system_log_csv (mkWorld None (Some (table ["CPU"] [[VInt 1]; [VInt 2]])) [])
  = Some (table ["CPU"] [[VInt 1]; [VInt 2]])
  /\ load_history (mkWorld None (Some (table ["CPU"] [[VInt 1]; [VInt 2]])) [])
     = Ok (mkFrame ["CPU"] (label_from 0 [[VInt 1]; [VInt 2]]))
          (mkWorld None (Some (table ["CPU"] [[VInt 1]; [VInt 2]])) [])
  /\ (has_column "Timestamp" ["CPU"] = false ->
      (1 < List.length [[VInt 1]; [VInt 2]])%nat ->
      forall w0,
        trend_section (mkFrame ["CPU"] (label_from 0 [[VInt 1]; [VInt 2]])) w0
        = Raise (KeyError "Timestamp")
            (with_page w0 (page w0 ++ [st_subheader "📈 System Trend Graphs"])))
  /\ (has_column "Timestamp" ["CPU"] = false ->
      (List.length [[VInt 1]; [VInt 2]] <= 1)%nat ->
      forall w0,
        raised (trend_section
                  (mkFrame ["CPU"] (label_from 0 [[VInt 1]; [VInt 2]])) w0)
        = None).
Proof.
  split; [reflexivity|].
  apply (load_accepts_any_header
           (mkWorld None (Some (table ["CPU"] [[VInt 1]; [VInt 2]])) [])
           ["CPU"] [[VInt 1]; [VInt 2]]).
  reflexivity.
Defined.

(** * The timestamps the program writes read back *)

Lemma digit_val_digit (n : Z) : digit_val (digit n) = Some (n mod 10).
Proof.
  unfold digit_val, digit.
  assert (Hm : 0 <= n mod 10 < 10) by (apply Z.mod_pos_bound; lia).
  rewrite nat_ascii_embedding by lia.
  replace (Z.of_nat (48 + Z.to_nat (n mod 10))) with (48 + n mod 10) by lia.
  destruct (Z.leb_spec 48 (48 + n mod 10)); [|lia].
  destruct (Z.leb_spec (48 + n mod 10) 57); [|lia].
  cbn [andb]. f_equal. lia.
Qed.

Lemma number_of_two (n : Z) :
  0 <= n < 100 -> number_of 0 [digit (n / 10); digit n] = Some n.
Proof.
  intros H. cbn [number_of]. rewrite !digit_val_digit. f_equal.
  assert (H1 : 0 <= n / 10 < 10)
    by (split; [apply Z.div_pos | apply Z.div_lt_upper_bound]; lia).
  rewrite (Z.mod_small (n / 10)) by lia.
  pose proof (Z.div_mod n 10). lia.
Qed.

Lemma number_of_four (n : Z) :
  0 <= n < 10000 ->
  number_of 0 [digit (n / 1000); digit (n / 100); digit (n / 10); digit n]
  = Some n.
Proof.
  intros H. cbn [number_of]. rewrite !digit_val_digit. f_equal.
  assert (H3 : 0 <= n / 1000 < 10)
    by (split; [apply Z.div_pos | apply Z.div_lt_upper_bound]; lia).
  rewrite (Z.mod_small (n / 1000)) by lia.
  pose proof (Z.div_mod n 10).
  pose proof (Z.div_mod (n / 10) 10).
  pose proof (Z.div_mod (n / 100) 10).
  replace (n / 10 / 10) with (n / 100) in * by (rewrite Z.div_div by lia; reflexivity).
  replace (n / 100 / 10) with (n / 1000) in * by (rewrite Z.div_div by lia; reflexivity).
  lia.
Qed.

Lemma strftime_parses (d : datetime) :
  valid_datetime d = true -> parse_datetime (strftime d) = Some d.
Proof.
  intros Hv. pose proof Hv as Hb. unfold valid_datetime in Hb.
  repeat (apply andb_prop in Hb; destruct Hb as [Hb ?]).
  repeat match goal with
         | H : (_ <=? _) = true |- _ => apply Z.leb_le in H
         end.
  assert (Hday : day d <= 31).
  { unfold days_in_month in *.
    destruct (month d =? 2); [destruct (leap_year (year d)); lia|].
    destruct ((month d =? 4) || (month d =? 6) || (month d =? 9)
              || (month d =? 11)); lia. }
  unfold parse_datetime, strftime, four_digits, two_digits.
  cbn [String.append list_ascii_of_string].
  cbn [Ascii.eqb Bool.eqb andb].
  rewrite number_of_four by lia. rewrite !number_of_two by lia.
  destruct d. cbn [year month day hour minute second] in *.
  rewrite Hv. reflexivity.
Qed.

(** A row of the analysis under a valid clock converts. *)
Lemma written_timestamp_converts (d : datetime) :
  valid_datetime d = true -> converts (VStr (strftime d)) = true.
Proof.
  intros H. cbn [converts]. rewrite (strftime_parses d H). reflexivity.
Qed.

(** * The history file over a whole run *)

Create HintDb log discriminated.

Lemma keeps_ret {A : Type} (a : A) : keeps_log (ret a).
Proof. intros w. reflexivity. Qed.

Lemma keeps_raise {A : Type} (e : exn) : keeps_log (@raise A e).
Proof. intros w. reflexivity. Qed.

Lemma keeps_st (x : Widget) : keeps_log (st x).
Proof. intros w. reflexivity. Qed.

Lemma keeps_bind {A B : Type} (c : M A) (k : A -> M B) :
  keeps_log c -> (forall a, keeps_log (k a)) -> keeps_log (bind c k).
Proof.
  intros Hc Hk w. unfold bind. specialize (Hc w).
  destruct (c w) as [a w'|e w']; cbn in Hc.
  - rewrite Hk. exact Hc.
  - exact Hc.
Qed.

Lemma keeps_if {A : Type} (b : bool) (c1 c2 : M A) :
  keeps_log c1 -> keeps_log c2 -> keeps_log (if b then c1 else c2).
Proof. destruct b; auto. Qed.

Lemma keeps_for_each {A : Type} (l : list A) (body : A -> M unit) :
  (forall x, keeps_log (body x)) -> keeps_log (for_each l body).
Proof.
  intros H. induction l as [|x l IH]; cbn [for_each].
  - apply keeps_ret.
  - apply keeps_bind; auto.
Qed.

#[local] Hint Resolve keeps_ret keeps_raise keeps_st keeps_if keeps_for_each
  : log.

Ltac keeps :=
  repeat first
    [ progress (auto with log)
    | apply keeps_bind; [|intros ?]
    | apply keeps_if
    | apply keeps_for_each; intros ? ].

Lemma keeps_getitem (df : DataFrame) (c : string) : keeps_log (getitem df c).
Proof. unfold getitem. keeps. Qed.

Lemma keeps_to_datetime_cell (v : cell) : keeps_log (to_datetime_cell v).
Proof.
  unfold to_datetime_cell. destruct v as [z|f|s|t|]; keeps.
  destruct (parse_datetime s); keeps.
Qed.

#[local] Hint Resolve keeps_getitem keeps_to_datetime_cell : log.

Lemma keeps_to_datetime (s : list (cell * cell)) : keeps_log (to_datetime s).
Proof.
  induction s as [|[i v] s IH]; cbn [to_datetime]; keeps.
Qed.

Lemma keeps_sort_values (df : DataFrame) (c : string) :
  keeps_log (sort_values df c).
Proof. unfold sort_values. keeps. Qed.

Lemma keeps_set_index (df : DataFrame) (c : string) :
  keeps_log (set_index df c).
Proof. unfold set_index. keeps. Qed.

#[local] Hint Resolve keeps_to_datetime keeps_sort_values keeps_set_index : log.

Lemma keeps_ordered_by_time (history : DataFrame) :
  keeps_log (ordered_by_time history).
Proof. unfold ordered_by_time. keeps. Qed.

Lemma keeps_line_chart (history : DataFrame) (c : string) :
  keeps_log (line_chart history c).
Proof. unfold line_chart. keeps. Qed.

#[local] Hint Resolve keeps_ordered_by_time keeps_line_chart : log.

Lemma keeps_trend_section (history : DataFrame) :
  keeps_log (trend_section history).
Proof. unfold trend_section. keeps. Qed.

Lemma keeps_history_table (history : DataFrame) :
  keeps_log (history_table history).
Proof. unfold history_table. keeps. Qed.

#[local] Hint Resolve keeps_trend_section keeps_history_table : log.

Lemma yields_ret {A : Type} (a : A) : yields (ret a) a.
Proof. intros w. exists w. auto. Qed.

Lemma yields_st (x : Widget) : yields (st x) tt.
Proof. intros w. eexists. split; [reflexivity|]. auto. Qed.

Lemma yields_bind {A B : Type} (c : M A) (k : A -> M B) (a : A) (b : B) :
  yields c a -> yields (k a) b -> yields (bind c k) b.
Proof.
  intros Hc Hk w. destruct (Hc w) as [w1 [E1 [L1 P1]]].
  destruct (Hk w1) as [w2 [E2 [L2 P2]]]. exists w2.
  unfold bind. rewrite E1, E2. repeat split; congruence.
Qed.

Lemma yields_if {A : Type} (b : bool) (c1 c2 : M A) (a : A) :
  yields c1 a -> yields c2 a -> yields (if b then c1 else c2) a.
Proof. destruct b; auto. Qed.

Lemma yields_for_each {A : Type} (l : list A) (body : A -> M unit) :
  (forall x, yields (body x) tt) -> yields (for_each l body) tt.
Proof.
  intros H. induction l as [|x l IH]; cbn [for_each].
  - apply yields_ret.
  - eapply yields_bind; [apply H | exact IH].
Qed.

#[local] Hint Resolve yields_ret yields_st yields_if yields_for_each : log.

Ltac yields_steps :=
  repeat first
    [ apply yields_st | apply yields_ret
    | eapply yields_bind
    | apply yields_if
    | apply yields_for_each; intros ? ].

Lemma yields_page_config : yields page_config tt.
Proof. unfold page_config. yields_steps. Qed.

Lemma yields_input_section (s : Session) :
  yields (input_section s) (slider_reading s).
Proof. unfold input_section, slider, slider_reading. yields_steps. Qed.

Lemma yields_live_metrics (r : Reading) : yields (live_metrics r) tt.
Proof. unfold live_metrics. yields_steps. Qed.

Lemma yields_button (label : string) (pressed : bool) :
  yields (button label pressed) pressed.
Proof. unfold button. yields_steps. Qed.

Lemma yields_diagnostic_layer (r : Reading) :
  yields (diagnostic_layer r) (root_causes r).
Proof. unfold diagnostic_layer. yields_steps. Qed.

Lemma yields_prescriptive_layer (r : Reading) :
  yields (prescriptive_layer r) (solutions r).
Proof. unfold prescriptive_layer. yields_steps. Qed.

(** Running on after a statement that yields. *)
Lemma bind_yields {A B : Type} (c : M A) (k : A -> M B) (a : A) (w : World) :
  yields c a ->
  exists w', bind c k w = k a w'
             /\ system_log_csv w' = system_log_csv w
             /\ predictive_model_pkl w' = predictive_model_pkl w.
Proof.
  intros Hc. destruct (Hc w) as [w' [E H]]. exists w'.
  unfold bind. rewrite E. auto.
Qed.

Lemma append_log_ok (lines : list (list cell)) (r : HistoryRecord) (w : World) :
  aligned history_columns lines ->
  append_log (mkFrame history_columns (label_from 0 lines)) r w
  = Ok (mkFrame history_columns (label_from 0 (lines ++ [cells_of r])))
       (with_log w (Some (table history_columns (lines ++ [cells_of r])))).
Proof.
  intros Hal. unfold append_log, bind, to_csv.
  rewrite (concat_new_log lines r Hal). cbn [columns rows].
  rewrite label_from_cells. reflexivity.
Qed.

Ltac step_yields lemma w' Hlog Hpkl :=
  let E := fresh "E" in
  match goal with
  | |- context [bind ?c ?k ?w] =>
      destruct (bind_yields c k _ w lemma) as [w' [E [Hlog Hpkl]]];
      rewrite E; clear E
  end.

Lemma analysis_log (model : Model) (lines : list (list cell)) (r : Reading)
    (clock : datetime) (w : World) :
  aligned history_columns lines ->
  exists h w',
    analysis model (mkFrame history_columns (label_from 0 lines)) r clock w
    = Ok h w'
    /\ system_log_csv w'
       = Some (table history_columns
                 (lines ++ [cells_of (evaluation_record model r clock)])).
Proof.
  intros Hal. unfold analysis. cbv zeta.
  step_yields (yields_st st_divider) w1 L1 P1.
  step_yields (yields_st (st_subheader "🔮 Predictive Analysis")) w2 L2 P2.
  match goal with
  | |- context [bind (st ?x) ?k w2] =>
      destruct (bind_yields (st x) k _ w2 (yields_st x)) as [w3 [E [L3 P3]]];
      rewrite E; clear E
  end.
  match goal with
  | |- context [bind (st ?x) ?k w3] =>
      destruct (bind_yields (st x) k _ w3 (yields_st x)) as [w4 [E [L4 P4]]];
      rewrite E; clear E
  end.
  match goal with
  | |- context [bind ?c ?k w4] =>
      assert (Hy : yields c tt) by (apply yields_if; apply yields_st);
      destruct (bind_yields c k _ w4 Hy) as [w5 [E [L5 P5]]];
      rewrite E; clear E Hy
  end.
  step_yields (yields_diagnostic_layer r) w6 L6 P6.
  step_yields (yields_prescriptive_layer r) w7 L7 P7.
  rewrite (append_log_ok lines _ w7 Hal).
  eexists. eexists. split; reflexivity.
Qed.

(** One run of the script on a store it has written: the file is left as
    it was, or, when the classifier loads and the button is pressed, it
    holds the old lines followed by the record of this run. *)
Lemma app_log (s : Session) (w : World) :
  history_store (system_log_csv w) ->
  final_log (app s w)
  = match predictive_model_pkl w with
    | Some (pickled m) =>
        if predict_button s
        then Some (table history_columns
                     (stored (system_log_csv w)
                      ++ [cells_of
                            (evaluation_record m (slider_reading s) (now s))]))
        else system_log_csv w
    | _ => system_log_csv w
    end.
Proof.
  intros Hst. unfold app.
  step_yields yields_page_config w1 L1 P1.
  unfold bind at 1. unfold joblib_load at 1. rewrite P1.
  destruct (predictive_model_pkl w) as [[m|]|]; cbn [final_log];
    try exact L1.
  rewrite <- L1 in Hst.
  destruct (load_history_store w1 Hst) as [Hload Hal].
  unfold bind at 1. rewrite Hload. rewrite L1 in Hal |- *.
  set (lines := stored (system_log_csv w)) in *.
  step_yields (yields_input_section s) w2 L2 P2.
  step_yields (yields_live_metrics (slider_reading s)) w3 L3 P3.
  step_yields (yields_button "🚀 Run AI System Analysis" (predict_button s))
    w4 L4 P4.
  destruct (predict_button s).
  - destruct (analysis_log m lines (slider_reading s) (now s) w4 Hal)
      as [h [w5 [E L5]]].
    unfold bind at 1. rewrite E. rewrite <- L5.
    apply (keeps_bind (trend_section h) (fun h' => history_table h'));
      auto with log.
  - unfold bind at 1. cbn [ret].
    transitivity (system_log_csv w4); [|congruence].
    apply (keeps_bind (trend_section _) (fun h' => history_table h'));
      auto with log.
Qed.

(** * Append, then load *)

(** C3: from a store the program has written (or none), loading, appending
    a record and loading again gives the lines that were stored, unchanged
    and in their order, followed by the new record, which reads back equal
    in every field; and a whole run of the script leaves the file as it
    was or with one record added after the stored ones. *)
Theorem append_then_load (w : World) (r : HistoryRecord) :
  history_store (system_log_csv w) ->
  (exists h h' w',
      load_history w = Ok h w
      /\ append_log h r w = Ok h' w'
      /\ load_history w' = Ok h' w'
      /\ map snd (rows h) = stored (system_log_csv w)
      /\ map snd (rows h') = (map snd (rows h) ++ [cells_of r])%list
      /\ record_of (last (map snd (rows h')) []) = Some r
      /\ history_store (system_log_csv w'))
  /\ (forall s,
        final_log (app s w) = system_log_csv w
        \/ exists r',
             final_log (app s w)
             = Some (table history_columns
                       (stored (system_log_csv w) ++ [cells_of r'])%list)).
Proof.
  intros Hst. split.
  - destruct (load_history_store w Hst) as [Hload Hal].
    set (lines := stored (system_log_csv w)) in *.
    exists (mkFrame history_columns (label_from 0 lines)).
    exists (mkFrame history_columns (label_from 0 (lines ++ [cells_of r]))).
    exists (with_log w (Some (table history_columns (lines ++ [cells_of r])))).
    split; [exact Hload|].
    split; [apply append_log_ok; exact Hal|].
    split; [apply load_history_table; reflexivity|].
    cbn [rows]. rewrite !label_from_cells.
    split; [reflexivity|]. split; [reflexivity|].
    split; [rewrite last_last; apply record_of_cells|].
    cbn. split; [reflexivity|].
    unfold aligned in *. apply Forall_app. split; [exact Hal|].
    constructor; [reflexivity | constructor].
  - intros s. rewrite (app_log s w Hst).
    destruct (predictive_model_pkl w) as [[m|]|]; auto.
    destruct (predict_button s); auto.
    right. eexists. reflexivity.
Qed.

Lemma append_then_load_witness :
  let w :=
    mkWorld (Some (pickled some_model))
      (Some (table history_columns
               [[ VStr "2024-03-09 07:05:59"; VInt 90; VInt 90; VInt 1;
                  VInt 100; VInt 900; VInt 50; VInt 20; VFloat 75;
                  VStr "YES" ]]))
      [] in
  let r := mkRecord "2024-03-09 07:06:10" 50 50 1 100 200 50 20 12.5 "NO" in
  history_store (system_log_csv w)
  /\ (exists h h' w',
         load_history w = Ok h w
         /\ append_log h r w = Ok h' w'
         /\ load_history w' = Ok h' w'
         /\ map snd (rows h) = stored (system_log_csv w)
         /\ map snd (rows h') = (map snd (rows h) ++ [cells_of r])%list
         /\ record_of (last (map snd (rows h')) []) = Some r
         /\ history_store (system_log_csv w'))
  /\ (forall s,
        final_log (app s w) = system_log_csv w
        \/ exists r',
             final_log (app s w)
             = Some (table history_columns
                       (stored (system_log_csv w) ++ [cells_of r'])%list)).
Proof.
  cbv zeta.
  assert (H : history_store
                (system_log_csv
                   (mkWorld (Some (pickled some_model))
                      (Some (table history_columns
                               [[ VStr "2024-03-09 07:05:59"; VInt 90; VInt 90;
                                  VInt 1; VInt 100; VInt 900; VInt 50; VInt 20;
                                  VFloat 75; VStr "YES" ]]))
                      []))).
  { cbn. split; [reflexivity|]. repeat constructor. }
  split; [exact H|].
  exact (append_then_load _
           (mkRecord "2024-03-09 07:06:10" 50 50 1 100 200 50 20 12.5 "NO") H).
Defined.

(** The same store after a run with the button pressed: two lines. *)
Example app_appends_record :
  final_log
    (app pressed_session
       (mkWorld (Some (pickled some_model))
          (Some (table history_columns
                   [[ VStr "2024-03-09 07:05:59"; VInt 90; VInt 90; VInt 1;
                      VInt 100; VInt 900; VInt 50; VInt 20; VFloat 75;
                      VStr "YES" ]]))
          []))
  = Some (table history_columns
            [ [ VStr "2024-03-09 07:05:59"; VInt 90; VInt 90; VInt 1;
                VInt 100; VInt 900; VInt 50; VInt 20; VFloat 75; VStr "YES" ];
              [ VStr "2024-03-09 07:06:10"; VInt 50; VInt 50; VInt 1;
                VInt 200; VInt 200; VInt 100; VInt 50; VFloat 25;
                VStr "NO" ] ]).
Proof. vm_compute. reflexivity. Qed.

(** * Further properties of the rule engine *)

(** X1: A timestamp written on line 97 is read back on line 196 as the date
    it was made from: for every date of the calendar, [strftime] gives
    nineteen characters that parse to the same date, so [pd.to_datetime]
    turns the stored cell into that date without raising. *)
Theorem timestamp_round_trip (d : datetime) (w : World) :
  valid_datetime d = true ->
  String.length (strftime d) = 19%nat
  /\ parse_datetime (strftime d) = Some d
  /\ to_datetime_cell (VStr (strftime d)) w = Ok (VTime (Some d)) w.
Proof.
  intros H. split; [reflexivity|].
  split; [apply strftime_parses; exact H|].
  cbn [to_datetime_cell]. rewrite (strftime_parses d H). reflexivity.
Qed.

Lemma timestamp_round_trip_witness :
  valid_datetime (mkDatetime 2024 2 29 23 59 59) = true
  /\ String.length (strftime (mkDatetime 2024 2 29 23 59 59)) = 19%nat
  /\ parse_datetime (strftime (mkDatetime 2024 2 29 23 59 59))
     = Some (mkDatetime 2024 2 29 23 59 59)
  /\ to_datetime_cell (VStr (strftime (mkDatetime 2024 2 29 23 59 59)))
       (mkWorld None None [])
     = Ok (VTime (Some (mkDatetime 2024 2 29 23 59 59))) (mkWorld None None []).
Proof.
  split; [reflexivity|].
  apply (timestamp_round_trip (mkDatetime 2024 2 29 23 59 59)
           (mkWorld None None [])).
  reflexivity.
Defined.

Lemma filter_length_mono {A : Type} (f g : A -> bool) (l : list A) :
  (forall x, In x l -> f x = true -> g x = true) ->
  (List.length (filter f l) <= List.length (filter g l))%nat.
Proof.
  induction l as [|x l IH]; intros H; [cbn; lia|].
  assert (IH' : (List.length (filter f l) <= List.length (filter g l))%nat).
  { apply IH. intros y Hy. apply H. right. exact Hy. }
  cbn. destruct (f x) eqn:Ef.
  - rewrite (H x (or_introl eq_refl) Ef). cbn. lia.
  - destruct (g x); cbn; lia.
Qed.

Lemma fired_mono (rules : list rule) (a b : Reading) :
  (forall p s, In (p, s) rules -> p a = true -> p b = true) ->
  incl (fired rules a) (fired rules b)
  /\ (List.length (fired rules a) <= List.length (fired rules b))%nat.
Proof.
  intros H. split.
  - intros s Hs. apply in_fired in Hs. destruct Hs as [p [Hin Hp]].
    apply in_fired. exists p. split; [exact Hin | eapply H; eauto].
  - unfold fired. rewrite !length_map. apply filter_length_mono.
    intros [p s] Hin. cbn [fst]. exact (H p s Hin).
Qed.

Lemma gtb_mono (x y k : Z) : x <= y -> (x >? k) = true -> (y >? k) = true.
Proof. intros H Hx. apply gtb_true in Hx. apply gtb_true. lia. Qed.

(** X2: Raising the values of a reading never clears a finding: every root
    cause and every remediation of the lower reading is also reported for
    the higher one, and there are at least as many. *)
Theorem findings_monotone (a b : Reading) :
  reading_le a b ->
  incl (root_causes a) (root_causes b)
  /\ incl (solutions a) (solutions b)
  /\ (List.length (root_causes a) <= List.length (root_causes b))%nat
  /\ (List.length (solutions a) <= List.length (solutions b))%nat.
Proof.
  intros (Hc & Hm & He & Hr & Ht & Hn & Hd).
  assert (Hcauses : forall p s, In (p, s) cause_rules ->
                                p a = true -> p b = true).
  { intros p s Hin. which_rule Hin; apply gtb_mono; assumption. }
  assert (Hrem : forall p s, In (p, s) remediation_rules ->
                             p a = true -> p b = true).
  { intros p s Hin. which_rule Hin; apply gtb_mono; assumption. }
  rewrite !root_causes_fired, !solutions_fired.
  destruct (fired_mono cause_rules a b Hcauses) as [H1 H2].
  destruct (fired_mono remediation_rules a b Hrem) as [H3 H4].
  auto.
Qed.

Lemma findings_monotone_witness :
  reading_le (mkReading 90 50 9 100 200 50 20) (mkReading 95 90 9 100 900 50 20)
  /\ incl (root_causes (mkReading 90 50 9 100 200 50 20))
          (root_causes (mkReading 95 90 9 100 900 50 20))
  /\ incl (solutions (mkReading 90 50 9 100 200 50 20))
          (solutions (mkReading 95 90 9 100 900 50 20))
  /\ (List.length (root_causes (mkReading 90 50 9 100 200 50 20))
      <= List.length (root_causes (mkReading 95 90 9 100 900 50 20)))%nat
  /\ (List.length (solutions (mkReading 90 50 9 100 200 50 20))
      <= List.length (solutions (mkReading 95 90 9 100 900 50 20)))%nat.
Proof.
  assert (H : reading_le (mkReading 90 50 9 100 200 50 20)
                (mkReading 95 90 9 100 900 50 20)).
  { unfold reading_le. cbn. lia. }
  split; [exact H|].
  exact (findings_monotone _ _ H).
Defined.

Lemma fired_nodup (rules : list rule) (r : Reading) :
  NoDup (map snd rules) -> NoDup (fired rules r).
Proof.
  unfold fired. induction rules as [|[p s] rules IH]; intros Hnd;
    [constructor|].
  cbn [map snd] in Hnd. inversion Hnd as [|s' l Hs Hnd']; subst.
  cbn [filter fst]. destruct (p r); [|apply IH; exact Hnd'].
  cbn [map snd]. constructor; [|apply IH; exact Hnd'].
  intros Hin. apply Hs. apply in_map_iff in Hin.
  destruct Hin as [[q t] [Ht Hin]]. apply filter_In in Hin.
  apply in_map_iff. exists (q, t). tauto.
Qed.

Ltac distinct_texts :=
  repeat (constructor;
          [cbn [In]; intros H;
           repeat (destruct H as [H|H]; [discriminate H|]); exact H|]);
  constructor.

(** X3: No finding is reported twice, and there are at most seven root causes
    and five remediations. *)
Theorem findings_distinct (r : Reading) :
  NoDup (root_causes r) /\ NoDup (solutions r)
  /\ (List.length (root_causes r) <= 7)%nat
  /\ (List.length (solutions r) <= 5)%nat.
Proof.
  rewrite root_causes_fired, solutions_fired.
  split; [apply fired_nodup; cbn; distinct_texts|].
  split; [apply fired_nodup; cbn; distinct_texts|].
  split; [apply (fired_length cause_rules r)
         | apply (fired_length remediation_rules r)].
Qed.

(** * What the two layers show *)

Lemma root_causes_nil_iff (r : Reading) :
  root_causes r = [] <-> within_cause_thresholds r.
Proof.
  unfold within_cause_thresholds. rewrite <- !gtb_false.
  unfold root_causes, append.
  destruct (cpu r >? 85), (memory r >? 85), (error r >? 7),
    (response r >? 400), (threads r >? 800), (network r >? 800),
    (disk r >? 400); cbn; split; intros H; try discriminate H;
    try reflexivity; try tauto;
    repeat match goal with
           | H : _ /\ _ |- _ => destruct H
           end; discriminate.
Qed.

Lemma solutions_nil_iff (r : Reading) :
  solutions r = [] <-> within_remediation_thresholds r.
Proof.
  unfold within_remediation_thresholds. rewrite <- !gtb_false.
  unfold solutions, append.
  destruct (cpu r >? 85), (memory r >? 85), (threads r >? 800),
    (network r >? 800), (disk r >? 400); cbn; split; intros H;
    try discriminate H; try reflexivity; try tauto;
    repeat match goal with
           | H : _ /\ _ |- _ => destruct H
           end; discriminate.
Qed.

Lemma length_zero_nil {A : Type} (l : list A) :
  (Z.of_nat (List.length l) =? 0) = true <-> l = [].
Proof.
  destruct l; cbn [List.length]; split; intros H; try reflexivity;
    discriminate H.
Qed.

(** X4: The diagnostic layer shows the notice "No critical anomalies
    detected." exactly when no value exceeds its threshold, and otherwise
    one warning per root cause, in order; the prescriptive layer shows
    "System stable. No corrective action required." exactly when none of
    its five thresholds is exceeded, and otherwise one line per
    remediation.  Neither layer raises. *)
Theorem layers_show (r : Reading) (w : World) :
  exists shown_causes shown_actions,
    diagnostic_layer r w
    = Ok (root_causes r)
        (with_page w
           (page w ++ st_subheader "🔍 Root Cause Analysis" :: shown_causes))
    /\ prescriptive_layer r w
       = Ok (solutions r)
           (with_page w
              (page w ++ st_subheader "🛠 Recommended Actions" :: shown_actions))
    /\ ((within_cause_thresholds r /\ shown_causes = [no_anomaly])
        \/ (~ within_cause_thresholds r
            /\ root_causes r <> []
            /\ shown_causes
               = map (fun cause => st_warning ("• " ++ cause)) (root_causes r)))
    /\ ((within_remediation_thresholds r /\ shown_actions = [system_stable])
        \/ (~ within_remediation_thresholds r
            /\ solutions r <> []
            /\ shown_actions
               = map (fun solution => st_write ("• " ++ solution))
                   (solutions r))).
Proof.
  eexists. eexists.
  split; [apply diagnostic_layer_ok|].
  split; [apply prescriptive_layer_ok|].
  split.
  - destruct (Z.of_nat (List.length (root_causes r)) =? 0) eqn:E.
    + apply length_zero_nil in E. left.
      split; [apply root_causes_nil_iff; exact E | reflexivity].
    + right. assert (Hne : root_causes r <> []).
      { intros H. apply length_zero_nil in H. congruence. }
      split; [rewrite <- root_causes_nil_iff; exact Hne|].
      split; [exact Hne | reflexivity].
  - destruct (Z.of_nat (List.length (solutions r)) =? 0) eqn:E.
    + apply length_zero_nil in E. left.
      split; [apply solutions_nil_iff; exact E | reflexivity].
    + right. assert (Hne : solutions r <> []).
      { intros H. apply length_zero_nil in H. congruence. }
      split; [rewrite <- solutions_nil_iff; exact Hne|].
      split; [exact Hne | reflexivity].
Qed.

(** X5: A reading whose only anomalies are the error rate or the response
    time gets a root-cause warning and, in the same run, the notice that
    the system is stable: the prescriptive layer has no rule for them. *)
Theorem anomaly_without_action (r : Reading) (w : World) :
  error r > 7 \/ response r > 400 ->
  within_remediation_thresholds r ->
  root_causes r <> []
  /\ (forall c, In c (root_causes r) ->
        c = "Error Spike Detected" \/ c = "High Response Latency")
  /\ diagnostic_layer r w
     = Ok (root_causes r)
         (with_page w
            (page w ++ st_subheader "🔍 Root Cause Analysis"
               :: map (fun cause => st_warning ("• " ++ cause)) (root_causes r)))
  /\ prescriptive_layer r w
     = Ok []
         (with_page w
            (page w ++ [st_subheader "🛠 Recommended Actions"; system_stable])).
Proof.
  intros Hanom Hnorm.
  assert (Hsol : solutions r = []) by (apply solutions_nil_iff; exact Hnorm).
  assert (Hne : root_causes r <> []).
  { rewrite root_causes_nil_iff. unfold within_cause_thresholds. lia. }
  split; [exact Hne|]. split.
  - intros c Hc. rewrite root_causes_fired, in_fired in Hc.
    destruct Hc as [p [Hin Hp]].
    destruct Hnorm as (Hc1 & Hm & Ht & Hn & Hd).
    which_rule Hin; auto; apply gtb_true in Hp; lia.
  - split.
    + rewrite diagnostic_layer_ok. unfold diagnostic_widgets.
      destruct (Z.of_nat (List.length (root_causes r)) =? 0) eqn:E;
        [|reflexivity].
      apply length_zero_nil in E. contradiction.
    + rewrite prescriptive_layer_ok. unfold prescriptive_widgets.
      rewrite Hsol. reflexivity.
Qed.

Lemma anomaly_without_action_witness :
  (error (mkReading 50 50 9 450 200 100 50) > 7
   \/ response (mkReading 50 50 9 450 200 100 50) > 400)
  /\ within_remediation_thresholds (mkReading 50 50 9 450 200 100 50)
  /\ root_causes (mkReading 50 50 9 450 200 100 50) <> []
  /\ (forall c, In c (root_causes (mkReading 50 50 9 450 200 100 50)) ->
        c = "Error Spike Detected" \/ c = "High Response Latency")
  /\ diagnostic_layer (mkReading 50 50 9 450 200 100 50) (mkWorld None None [])
     = Ok (root_causes (mkReading 50 50 9 450 200 100 50))
         (with_page (mkWorld None None [])
            (page (mkWorld None None [])
             ++ st_subheader "🔍 Root Cause Analysis"
                :: map (fun cause => st_warning ("• " ++ cause))
                     (root_causes (mkReading 50 50 9 450 200 100 50))))
  /\ prescriptive_layer (mkReading 50 50 9 450 200 100 50)
       (mkWorld None None [])
     = Ok []
         (with_page (mkWorld None None [])
            (page (mkWorld None None [])
             ++ [st_subheader "🛠 Recommended Actions"; system_stable])).
Proof.
  assert (H1 : error (mkReading 50 50 9 450 200 100 50) > 7
               \/ response (mkReading 50 50 9 450 200 100 50) > 400)
    by (cbn; lia).
  assert (H2 : within_remediation_thresholds
                 (mkReading 50 50 9 450 200 100 50))
    by (unfold within_remediation_thresholds; cbn; lia).
  split; [exact H1|]. split; [exact H2|].
  exact (anomaly_without_action _ (mkWorld None None []) H1 H2).
Defined.

(** * Appending to a table of any header *)








(** * What a run leaves alone *)

Section Preservation.

Context {X : Type} (f : World -> X).

Hypothesis f_page : forall w p, f (with_page w p) = f w.
Hypothesis f_log : forall w l, f (with_log w l) = f w.

Lemma preserves_ret {A : Type} (a : A) : preserves f (ret a).
Proof. intros w. reflexivity. Qed.

Lemma preserves_raise {A : Type} (e : exn) : preserves f (@raise A e).
Proof. intros w. reflexivity. Qed.

Lemma preserves_st (x : Widget) : preserves f (st x).
Proof. intros w. apply (f_page w (page w ++ [x])). Qed.

Lemma preserves_to_csv (df : DataFrame) : preserves f (to_csv df).
Proof. intros w. apply f_log. Qed.

Lemma preserves_bind {A B : Type} (c : M A) (k : A -> M B) :
  preserves f c -> (forall a, preserves f (k a)) -> preserves f (bind c k).
Proof.
  intros Hc Hk w. unfold bind. specialize (Hc w).
  destruct (c w) as [a w'|e w']; cbn [world_of] in Hc.
  - rewrite Hk. exact Hc.
  - exact Hc.
Qed.

(** The same, when the first statement is known to return [a]. *)
Lemma preserves_bind_value {A B : Type} (c : M A) (k : A -> M B) (a : A) :
  preserves f c -> yields c a -> preserves f (k a) -> preserves f (bind c k).
Proof.
  intros Hc Hy Hk w. specialize (Hc w).
  destruct (Hy w) as [w' [E _]]. unfold bind. rewrite E in Hc |- *.
  cbn [world_of] in Hc. rewrite Hk. exact Hc.
Qed.

Lemma preserves_if {A : Type} (b : bool) (c1 c2 : M A) :
  preserves f c1 -> preserves f c2 -> preserves f (if b then c1 else c2).
Proof. destruct b; auto. Qed.

Lemma preserves_for_each {A : Type} (l : list A) (body : A -> M unit) :
  (forall x, preserves f (body x)) -> preserves f (for_each l body).
Proof.
  intros H. induction l as [|x l IH]; cbn [for_each].
  - apply preserves_ret.
  - apply preserves_bind; auto.
Qed.

Lemma preserves_joblib_load : preserves f joblib_load.
Proof.
  intros w. unfold joblib_load.
  destruct (predictive_model_pkl w) as [[m|]|]; reflexivity.
Qed.

Lemma preserves_os_path_exists : preserves f os_path_exists.
Proof. intros w. reflexivity. Qed.

Lemma preserves_read_csv : preserves f read_csv.
Proof.
  intros w. unfold read_csv.
  destruct (system_log_csv w) as [[|header lines]|]; reflexivity.
Qed.

Ltac preserving :=
  cbv zeta;
  repeat first
    [ apply preserves_st | apply preserves_ret | apply preserves_raise
    | apply preserves_joblib_load | apply preserves_os_path_exists
    | apply preserves_read_csv
    | apply preserves_bind; [|intros ?]
    | apply preserves_if
    | apply preserves_for_each; intros ?
    | assumption ].

Lemma preserves_getitem (df : DataFrame) (c : string) :
  preserves f (getitem df c).
Proof. unfold getitem. preserving. Qed.

Lemma preserves_to_datetime (s : list (cell * cell)) :
  preserves f (to_datetime s).
Proof.
  induction s as [|[i v] s IH]; cbn [to_datetime]; preserving.
  unfold to_datetime_cell. destruct v as [z|x|t|t|]; preserving.
  destruct (parse_datetime t); preserving.
Qed.

Lemma preserves_ordered_by_time (history : DataFrame) :
  preserves f (ordered_by_time history).
Proof.
  unfold ordered_by_time, sort_values, set_index.
  preserving; first [apply preserves_to_datetime | apply preserves_getitem].
Qed.

Lemma preserves_trend_section (history : DataFrame) :
  preserves f (trend_section history).
Proof.
  unfold trend_section, line_chart.
  preserving; apply preserves_to_datetime.
Qed.

Lemma preserves_history_table (history : DataFrame) :
  preserves f (history_table history).
Proof. unfold history_table. preserving. Qed.

Lemma preserves_page_config : preserves f page_config.
Proof. unfold page_config. preserving. Qed.

Lemma preserves_load_history : preserves f load_history.
Proof. unfold load_history. preserving. Qed.

Lemma preserves_input_section (s : Session) : preserves f (input_section s).
Proof. unfold input_section, slider. preserving. Qed.

Lemma preserves_live_metrics (r : Reading) : preserves f (live_metrics r).
Proof. unfold live_metrics. preserving. Qed.

Lemma preserves_button (label : string) (pressed : bool) :
  preserves f (button label pressed).
Proof. unfold button. preserving. Qed.

Lemma preserves_analysis (model : Model) (history : DataFrame) (r : Reading)
    (clock : datetime) :
  preserves f (analysis model history r clock).
Proof.
  unfold analysis, diagnostic_layer, prescriptive_layer, append_log.
  preserving. apply preserves_to_csv.
Qed.

(** What follows the analysis: the trend section and the history table. *)
Lemma preserves_display (history : DataFrame) :
  preserves f (bind (trend_section history) (fun h => history_table h)).
Proof.
  apply preserves_bind; [apply preserves_trend_section|].
  intros h. apply preserves_history_table.
Qed.

Lemma preserves_app (s : Session) : preserves f (app s).
Proof.
  unfold app.
  apply preserves_bind; [apply preserves_page_config | intros _].
  apply preserves_bind; [apply preserves_joblib_load | intros model].
  apply preserves_bind; [apply preserves_load_history | intros history].
  apply preserves_bind; [apply preserves_input_section | intros r].
  apply preserves_bind; [apply preserves_live_metrics | intros _].
  apply preserves_bind; [apply preserves_button | intros pressed].
  apply preserves_bind; [|intros h; apply preserves_display].
  apply preserves_if; [apply preserves_analysis | apply preserves_ret].
Qed.

(** A run in which the button is not pressed. *)
Lemma preserves_idle_app (s : Session) :
  predict_button s = false -> preserves f (app s).
Proof.
  intros Hidle. unfold app.
  apply preserves_bind; [apply preserves_page_config | intros _].
  apply preserves_bind; [apply preserves_joblib_load | intros model].
  apply preserves_bind; [apply preserves_load_history | intros history].
  apply preserves_bind; [apply preserves_input_section | intros r].
  apply preserves_bind; [apply preserves_live_metrics | intros _].
  eapply preserves_bind_value;
    [apply preserves_button | apply yields_button |].
  rewrite Hidle.
  apply preserves_bind; [apply preserves_ret|].
  intros h. apply preserves_display.
Qed.

End Preservation.

(** X7: The script never writes the model file: however a run ends, with or
    without the button, [predictive_model.pkl] is as it was. *)
Theorem model_file_untouched (s : Session) (w : World) :
  predictive_model_pkl (world_of (app s w)) = predictive_model_pkl w.
Proof.
  apply (preserves_app predictive_model_pkl); intros; reflexivity.
Qed.

(** X8: A run in which the button is not pressed never writes the history
    file, and does not create it when it is absent: whatever the file
    holds, readable or not, and however the run ends. *)
Theorem idle_run_writes_nothing (s : Session) (w : World) :
  predict_button s = false ->
  system_log_csv (world_of (app s w)) = system_log_csv w.
Proof.
  intros H.
  apply (preserves_idle_app system_log_csv); [intros; reflexivity | exact H].
Qed.

Lemma idle_run_writes_nothing_witness :
  predict_button idle_session = false
  /\ system_log_csv (world_of (app idle_session partial_world))
     = system_log_csv partial_world.
Proof.
  split; [reflexivity|].
  apply (idle_run_writes_nothing idle_session partial_world). reflexivity.
Defined.

(** * The analysis: what is shown and what is logged *)

Lemma bind_diagnostic_layer {B : Type} (r : Reading) (k : list string -> M B)
    (w : World) (p : list Widget) :
  bind (diagnostic_layer r) k (with_page w p)
  = k (root_causes r) (with_page w (p ++ diagnostic_widgets r)).
Proof.
  unfold bind at 1. rewrite diagnostic_layer_ok. reflexivity.
Qed.

Lemma bind_prescriptive_layer {B : Type} (r : Reading)
    (k : list string -> M B) (w : World) (p : list Widget) :
  bind (prescriptive_layer r) k (with_page w p)
  = k (solutions r) (with_page w (p ++ prescriptive_widgets r)).
Proof.
  unfold bind at 1. rewrite prescriptive_layer_ok. reflexivity.
Qed.

Lemma analysis_ok (model : Model) (history : DataFrame) (r : Reading)
    (clock : datetime) (w : World) :
  analysis model history r clock w
  = Ok (concat history (new_log (evaluation_record model r clock)))
      (with_log
         (with_page w
            (page w ++ verdict_widgets (evaluation_record model r clock)
             ++ diagnostic_widgets r ++ prescriptive_widgets r))
         (Some (csv_of
                  (concat history
                     (new_log (evaluation_record model r clock)))))).
Proof.
  unfold analysis. cbv zeta.
  rewrite <- (with_page_id w) at 1. rewrite !bind_st.
  unfold verdict_widgets, evaluation_record.
  cbn [Failure_Next_5min Crash_Probability Timestamp].
  destruct (predict model
              [cpu r; memory r; error r; response r; threads r; network r;
               disk r] =? 1);
    rewrite bind_st, bind_diagnostic_layer, bind_prescriptive_layer;
    unfold append_log, bind, to_csv, ret, csv_of, with_log, with_page;
    cbn [page predictive_model_pkl system_log_csv String.eqb Ascii.eqb
         Bool.eqb];
    rewrite <- !app_assoc; reflexivity.
Qed.

(** X9: What the analysis shows is what it logs: it never raises; the page
    gets the probability and the timestamp of the very record that is
    appended, the crash warning exactly when the logged flag is YES (that
    is, when the classifier answered 1) and the all-clear otherwise, then
    the two layers; and the file is rewritten with the old table and that
    record. *)
Theorem shown_is_logged (model : Model) (history : DataFrame) (r : Reading)
    (clock : datetime) (w : World) :
  exists logged w',
    analysis model history r clock w = Ok (concat history (new_log logged)) w'
    /\ logged = evaluation_record model r clock
    /\ page w'
       = (page w ++ verdict_widgets logged ++ diagnostic_widgets r
          ++ prescriptive_widgets r)%list
    /\ system_log_csv w' = Some (csv_of (concat history (new_log logged)))
    /\ predictive_model_pkl w' = predictive_model_pkl w
    /\ (In (st_error "⚠️ High Risk of System Crash!") (verdict_widgets logged)
        <-> Failure_Next_5min logged = "YES")
    /\ (In (st_success "✅ System Operating Normally") (verdict_widgets logged)
        <-> Failure_Next_5min logged = "NO")
    /\ (Failure_Next_5min logged = "YES"
        <-> predict model
              [cpu r; memory r; error r; response r; threads r; network r;
               disk r] = 1).
Proof.
  eexists. eexists. split; [apply analysis_ok|].
  split; [reflexivity|]. split; [reflexivity|]. split; [reflexivity|].
  split; [reflexivity|].
  unfold verdict_widgets, evaluation_record.
  cbn [Failure_Next_5min Crash_Probability Timestamp In].
  destruct (Z.eqb_spec
              (predict model
                 [cpu r; memory r; error r; response r; threads r; network r;
                  disk r]) 1) as [E|E];
    cbn [String.eqb Ascii.eqb Bool.eqb];
    repeat split; intros H; try reflexivity; try discriminate H;
      try contradiction; try tauto;
      try (repeat (destruct H as [H|H]; try discriminate H); contradiction).
Qed.

(** * A run, up to the trend section *)

Lemma load_history_loaded (w : World) :
  system_log_csv w <> Some no_header ->
  load_history w = Ok (loaded (system_log_csv w)) w.
Proof.
  intros H. destruct (system_log_csv w) as [[|header lines]|] eqn:E.
  - contradiction.
  - cbn [loaded]. apply load_history_table. exact E.
  - cbn [loaded]. apply load_history_absent. exact E.
Qed.

(** With a classifier and a history file that load, a run comes to its
    trend section with the table [displayed], the history file already
    written when the button was pressed. *)
Lemma app_reaches_display (s : Session) (w : World) (m : Model) :
  predictive_model_pkl w = Some (pickled m) ->
  system_log_csv w <> Some no_header ->
  exists w',
    app s w
    = bind (trend_section (displayed m s (system_log_csv w)))
        (fun h => history_table h) w'
    /\ predictive_model_pkl w' = predictive_model_pkl w
    /\ system_log_csv w'
       = (if predict_button s
          then Some (csv_of (displayed m s (system_log_csv w)))
          else system_log_csv w).
Proof.
  intros Hm Hlog. unfold app.
  step_yields yields_page_config w1 L1 P1.
  unfold bind at 1. unfold joblib_load at 1. rewrite P1, Hm.
  rewrite <- L1 in Hlog.
  unfold bind at 1. rewrite (load_history_loaded w1 Hlog). rewrite L1.
  step_yields (yields_input_section s) w2 L2 P2.
  step_yields (yields_live_metrics (slider_reading s)) w3 L3 P3.
  step_yields (yields_button "🚀 Run AI System Analysis" (predict_button s))
    w4 L4 P4.
  unfold displayed. destruct (predict_button s).
  - unfold bind at 1. rewrite analysis_ok. eexists.
    split; [reflexivity|]. cbn [with_log with_page predictive_model_pkl
                                system_log_csv].
    split; [congruence | reflexivity].
  - unfold bind at 1. cbn [ret]. exists w4.
    split; [reflexivity|]. split; congruence.
Qed.

(** X10: The record of a run is in the file before anything is charted: when
    the classifier and the history file load and the button is pressed,
    the run ends, normally or by an exception of the trend section, with
    the history file holding the loaded table followed by the record of
    this run. *)
Theorem record_logged_before_display (s : Session) (w : World) (m : Model) :
  predictive_model_pkl w = Some (pickled m) ->
  system_log_csv w <> Some no_header ->
  predict_button s = true ->
  system_log_csv (world_of (app s w))
  = Some (csv_of
            (concat (loaded (system_log_csv w))
               (new_log (evaluation_record m (slider_reading s) (now s))))).
Proof.
  intros Hm Hlog Hpressed.
  destruct (app_reaches_display s w m Hm Hlog) as [w' [E [_ L]]].
  rewrite E. unfold displayed in *. rewrite Hpressed in *.
  rewrite (preserves_display system_log_csv); [exact L|].
  intros; reflexivity.
Qed.

Lemma record_logged_before_display_witness :
  let w :=
    mkWorld (Some (pickled some_model))
      (Some (table history_columns
               [[ VStr "not a date"; VInt 90; VInt 90; VInt 1; VInt 100;
                  VInt 900; VInt 50; VInt 20; VFloat 75; VStr "YES" ]]))
      [] in
  predictive_model_pkl w = Some (pickled some_model)
  /\ system_log_csv w <> Some no_header
  /\ predict_button pressed_session = true
  /\ system_log_csv (world_of (app pressed_session w))
     = Some (csv_of
               (concat (loaded (system_log_csv w))
                  (new_log
                     (evaluation_record some_model
                        (slider_reading pressed_session)
                        (now pressed_session))))).
Proof.
  cbv zeta.
  split; [reflexivity|]. split; [discriminate|]. split; [reflexivity|].
  apply (record_logged_before_display pressed_session
           (mkWorld (Some (pickled some_model))
              (Some (table history_columns
                       [[ VStr "not a date"; VInt 90; VInt 90; VInt 1;
                          VInt 100; VInt 900; VInt 50; VInt 20; VFloat 75;
                          VStr "YES" ]]))
              [])
           some_model);
    [reflexivity | discriminate | reflexivity].
Defined.

(** That run: the trend section stops on the text that is no date, and
    the file has both lines. *)
Example record_logged_although_raised :
  let o :=
    app pressed_session
      (mkWorld (Some (pickled some_model))
         (Some (table history_columns
                  [[ VStr "not a date"; VInt 90; VInt 90; VInt 1; VInt 100;
                     VInt 900; VInt 50; VInt 20; VFloat 75; VStr "YES" ]]))
         []) in
  raised o = Some (ParserError "not a date")
  /\ final_log o
     = Some (table history_columns
               [ [ VStr "not a date"; VInt 90; VInt 90; VInt 1; VInt 100;
                   VInt 900; VInt 50; VInt 20; VFloat 75; VStr "YES" ];
                 [ VStr "2024-03-09 07:06:10"; VInt 50; VInt 50; VInt 1;
                   VInt 200; VInt 200; VInt 100; VInt 50; VFloat 25;
                   VStr "NO" ] ]).
Proof. split; vm_compute; reflexivity. Qed.

(** * Runs on a store the program has written *)

Lemma yields_history_table (history : DataFrame) :
  yields (history_table history) tt.
Proof. unfold history_table. yields_steps. Qed.

Lemma timestamps_convert_lines (k : Z) (lines : list (list cell)) :
  timestamps_convert (mkFrame history_columns (label_from k lines))
  = forallb line_converts lines.
Proof.
  unfold timestamps_convert. cbn [rows columns]. revert k.
  induction lines as [|l lines IH]; intros k; [reflexivity|].
  cbn [label_from forallb]. rewrite IH. reflexivity.
Qed.

(** The trend section and the history table on a table of the program
    whose timestamps convert: no exception, and both files are left. *)
Lemma display_ok (history : DataFrame) (w : World) :
  columns history = history_columns ->
  timestamps_convert history = true ->
  exists w',
    bind (trend_section history) (fun h => history_table h) w = Ok tt w'
    /\ system_log_csv w' = system_log_csv w
    /\ predictive_model_pkl w' = predictive_model_pkl w.
Proof.
  intros Hcols Hconv.
  destruct (le_lt_dec (List.length (rows history)) 1) as [Hshort|Hlong].
  - unfold bind. rewrite (trend_section_short history w Hshort).
    destruct (yields_history_table history (with_page w
      (page w ++
       [ st_subheader "📈 System Trend Graphs";
         st_info "Not enough data to show trends yet. Run analysis multiple times." ])))
      as [w' [E [L P]]].
    exists w'. rewrite E. auto.
  - unfold bind. rewrite (trend_section_ok history w Hcols Hconv Hlong).
    destruct (yields_history_table (in_time_order history) (with_page w
      (page w ++ st_subheader "📈 System Trend Graphs"
                 :: trend_widgets (in_time_order history))))
      as [w' [E [L P]]].
    exists w'. rewrite E. auto.
Qed.

Lemma loaded_store (f : option csv_file) :
  history_store f -> loaded f = mkFrame history_columns (label_from 0 (stored f)).
Proof.
  destruct f as [[|header lines]|]; cbn; intros H.
  - contradiction.
  - destruct H as [-> _]. reflexivity.
  - reflexivity.
Qed.

Lemma history_store_aligned (f : option csv_file) :
  history_store f -> aligned history_columns (stored f).
Proof.
  destruct f as [[|header lines]|]; cbn; intros H.
  - contradiction.
  - destruct H as [-> H]. exact H.
  - constructor.
Qed.

Lemma history_store_readable (f : option csv_file) :
  history_store f -> f <> Some no_header.
Proof. intros H E. subst f. exact H. Qed.

(** X11: In normal operation the script does not fail: when the classifier
    loads, the history file is absent or was written by the program with
    timestamps that convert, and the clock shows a date of the calendar,
    a run ends without an exception; the file then holds the old lines,
    followed by the record of the run when the button was pressed, and is
    again such a file, so the next run starts under the same conditions. *)
Theorem healthy_run (s : Session) (w : World) (m : Model) :
  predictive_model_pkl w = Some (pickled m) ->
  healthy_store (system_log_csv w) ->
  valid_datetime (now s) = true ->
  exists w',
    app s w = Ok tt w'
    /\ predictive_model_pkl w' = Some (pickled m)
    /\ healthy_store (system_log_csv w')
    /\ stored (system_log_csv w')
       = (stored (system_log_csv w)
          ++ (if predict_button s
              then [cells_of (evaluation_record m (slider_reading s) (now s))]
              else []))%list.
Proof.
  intros Hm [Hst Hconv] Hclock.
  destruct (app_reaches_display s w m Hm (history_store_readable _ Hst))
    as [w1 [E [P1 L1]]].
  pose proof (history_store_aligned _ Hst) as Hal.
  unfold displayed in *. rewrite (loaded_store _ Hst) in *.
  set (lines := stored (system_log_csv w)) in *.
  set (rec := evaluation_record m (slider_reading s) (now s)) in *.
  destruct (predict_button s).
  - rewrite (concat_new_log lines rec Hal) in *.
    assert (Hconv' : forallb line_converts (lines ++ [cells_of rec]) = true).
    { rewrite forallb_app, Hconv. cbn [forallb andb].
      rewrite andb_true_r. unfold line_converts, rec, evaluation_record.
      cbn [cells_of Timestamp at_column String.eqb Ascii.eqb Bool.eqb
           cell_or_nan history_columns].
      apply written_timestamp_converts. exact Hclock. }
    destruct (display_ok
                (mkFrame history_columns (label_from 0 (lines ++ [cells_of rec])))
                w1 eq_refl) as [w2 [E2 [L2 P2]]].
    { rewrite timestamps_convert_lines. exact Hconv'. }
    exists w2. rewrite E, E2. split; [reflexivity|].
    split; [congruence|].
    rewrite L2, L1. unfold csv_of. cbn [columns rows].
    rewrite label_from_cells. cbn [stored].
    split; [|reflexivity]. split; [|exact Hconv'].
    cbn [history_store]. split; [reflexivity|].
    unfold aligned in *. apply Forall_app. split; [exact Hal|].
    constructor; [reflexivity | constructor].
  - destruct (display_ok (mkFrame history_columns (label_from 0 lines))
                w1 eq_refl) as [w2 [E2 [L2 P2]]].
    { rewrite timestamps_convert_lines. exact Hconv. }
    exists w2. rewrite E, E2. split; [reflexivity|].
    split; [congruence|].
    rewrite L2, L1, app_nil_r. split; [split; assumption | reflexivity].
Qed.

Lemma healthy_run_witness :
  let w :=
    mkWorld (Some (pickled some_model))
      (Some (table history_columns
               [[ VStr "2024-03-09 07:05:59"; VInt 90; VInt 90; VInt 1;
                  VInt 100; VInt 900; VInt 50; VInt 20; VFloat 75;
                  VStr "YES" ]]))
      [] in
  predictive_model_pkl w = Some (pickled some_model)
  /\ healthy_store (system_log_csv w)
  /\ valid_datetime (now pressed_session) = true
  /\ exists w',
       app pressed_session w = Ok tt w'
       /\ predictive_model_pkl w' = Some (pickled some_model)
       /\ healthy_store (system_log_csv w')
       /\ stored (system_log_csv w')
          = (stored (system_log_csv w)
             ++ (if predict_button pressed_session
                 then [cells_of
                         (evaluation_record some_model
                            (slider_reading pressed_session)
                            (now pressed_session))]
                 else []))%list.
Proof.
  cbv zeta.
  assert (H : healthy_store
                (system_log_csv
                   (mkWorld (Some (pickled some_model))
                      (Some (table history_columns
                               [[ VStr "2024-03-09 07:05:59"; VInt 90; VInt 90;
                                  VInt 1; VInt 100; VInt 900; VInt 50; VInt 20;
                                  VFloat 75; VStr "YES" ]]))
                      []))).
  { split; [|reflexivity]. cbn. split; [reflexivity|]. repeat constructor. }
  split; [reflexivity|]. split; [exact H|]. split; [reflexivity|].
  apply (healthy_run pressed_session
           (mkWorld (Some (pickled some_model))
              (Some (table history_columns
                       [[ VStr "2024-03-09 07:05:59"; VInt 90; VInt 90;
                          VInt 1; VInt 100; VInt 900; VInt 50; VInt 20;
                          VFloat 75; VStr "YES" ]]))
              [])
           some_model);
    [reflexivity | exact H | reflexivity].
Defined.

(** * The history table *)

Lemma len_gtb_0 (history : DataFrame) :
  (len history >? 0) = match rows history with [] => false | _ => true end.
Proof. unfold len. destruct (rows history); reflexivity. Qed.

(** X12: The history table shows the notice "No historical data yet." for a
    table without rows and otherwise the last ten rows of the table it is
    given, or all of them when there are fewer, under the same columns; it
    never raises. *)
Theorem history_table_shows (history : DataFrame) (w : World) :
  (rows history = [] ->
   history_table history w
   = Ok tt
       (with_page w
          (page w ++ [ st_subheader "📜 System History";
                       st_info "No historical data yet." ])))
  /\ (rows history <> [] ->
      history_table history w
      = Ok tt
          (with_page w
             (page w ++ [ st_subheader "📜 System History";
                          st_dataframe (tail 10 history) ])))
  /\ columns (tail 10 history) = columns history
  /\ List.length (rows (tail 10 history))
     = Nat.min 10 (List.length (rows history))
  /\ rows history
     = (firstn (List.length (rows history) - 10) (rows history)
        ++ rows (tail 10 history))%list.
Proof.
  split; [|split; [|split; [|split]]].
  - intros H. unfold history_table.
    rewrite <- (with_page_id w) at 1. rewrite bind_st.
    rewrite len_gtb_0, H. unfold st, with_page. cbn.
    rewrite <- app_assoc. reflexivity.
  - intros H. unfold history_table.
    rewrite <- (with_page_id w) at 1. rewrite bind_st.
    rewrite len_gtb_0. destruct (rows history) eqn:E; [contradiction|].
    unfold st, with_page. cbn [page predictive_model_pkl system_log_csv].
    rewrite <- app_assoc. reflexivity.
  - reflexivity.
  - unfold tail. cbn [rows]. rewrite length_skipn. lia.
  - unfold tail. cbn [rows]. symmetry. apply firstn_skipn.
Qed.

(** * The table shown after the charts *)

Lemma strongly_sorted_skipn {A : Type} (R : A -> A -> Prop) (n : nat)
    (l : list A) :
  StronglySorted R l -> StronglySorted R (skipn n l).
Proof.
  revert l. induction n as [|n IH]; intros l Hs; [exact Hs|].
  destruct l as [|x l]; [constructor|]. cbn [skipn]. apply IH.
  inversion Hs; assumption.
Qed.

Lemma in_time_order_length (history : DataFrame) :
  List.length (rows (in_time_order history)) = List.length (rows history).
Proof.
  unfold in_time_order, converted. cbn [rows]. rewrite length_map.
  rewrite <- (Permutation_length (sort_rows_perm _ _)).
  apply length_map.
Qed.

(** X13: With more than one record the history table does not show the last
    ten records appended but the ten latest by time: it is given the table
    the trend section sorted, indexed by time and without its Timestamp
    column, and its rows are in non-decreasing time order. *)
Theorem displayed_table_is_time_ordered (history : DataFrame) (w : World) :
  columns history = history_columns ->
  timestamps_convert history = true ->
  (1 < List.length (rows history))%nat ->
  bind (trend_section history) (fun h => history_table h) w
  = Ok tt
      (with_page w
         (page w ++ st_subheader "📈 System Trend Graphs"
            :: trend_widgets (in_time_order history)
            ++ [ st_subheader "📜 System History";
                 st_dataframe (tail 10 (in_time_order history)) ]))
  /\ columns (tail 10 (in_time_order history))
     = [ "CPU"; "Memory"; "Error"; "Response"; "Threads"; "Network_Traffic";
         "Disk_IO"; "Crash_Probability"; "Failure_Next_5min" ]
  /\ StronglySorted
       (fun a b => time_leb (as_time (fst a)) (as_time (fst b)) = true)
       (rows (tail 10 (in_time_order history))).
Proof.
  intros Hcols Hconv Hlen. split; [|split].
  - unfold bind. rewrite (trend_section_ok history w Hcols Hconv Hlen).
    unfold history_table. rewrite bind_st, len_gtb_0.
    destruct (rows (in_time_order history)) eqn:E.
    + pose proof (in_time_order_length history) as Hl. rewrite E in Hl.
      cbn in Hl. lia.
    + unfold st, with_page. cbn [page predictive_model_pkl system_log_csv].
      rewrite <- !app_assoc. reflexivity.
  - unfold tail, in_time_order. cbn [columns]. rewrite Hcols. reflexivity.
  - unfold tail. cbn [rows]. apply strongly_sorted_skipn.
    apply in_time_order_sorted.
Qed.

Lemma displayed_table_is_time_ordered_witness :
  (columns skewed_history = history_columns
   /\ timestamps_convert skewed_history = true
   /\ (1 < List.length (rows skewed_history))%nat)
  /\ bind (trend_section skewed_history) (fun h => history_table h)
       (mkWorld None None [])
     = Ok tt
         (with_page (mkWorld None None [])
            (page (mkWorld None None [])
             ++ st_subheader "📈 System Trend Graphs"
                :: trend_widgets (in_time_order skewed_history)
                ++ [ st_subheader "📜 System History";
                     st_dataframe (tail 10 (in_time_order skewed_history)) ]))
  /\ columns (tail 10 (in_time_order skewed_history))
     = [ "CPU"; "Memory"; "Error"; "Response"; "Threads"; "Network_Traffic";
         "Disk_IO"; "Crash_Probability"; "Failure_Next_5min" ]
  /\ StronglySorted
       (fun a b => time_leb (as_time (fst a)) (as_time (fst b)) = true)
       (rows (tail 10 (in_time_order skewed_history))).
Proof.
  assert (H3 : (1 < List.length (rows skewed_history))%nat) by (cbn; lia).
  split; [split; [reflexivity | split; [reflexivity | exact H3]]|].
  exact (displayed_table_is_time_ordered skewed_history (mkWorld None None [])
           eq_refl eq_refl H3).
Defined.

(** * A chart over a missing column *)

Lemma has_column_remove_name (c t : string) (cols : list string) :
  c <> t -> has_column c (remove_name t cols) = has_column c cols.
Proof.
  intros Hne. induction cols as [|k cols IH]; [reflexivity|].
  cbn [remove_name]. destruct (String.eqb_spec k t) as [->|Hk].
  - unfold has_column. cbn [existsb].
    destruct (String.eqb_spec c t); [contradiction | reflexivity].
  - unfold has_column in *. cbn [existsb]. rewrite IH. reflexivity.
Qed.

Lemma bind_line_chart_missing {B : Type} (history : DataFrame) (c : string)
    (k : unit -> M B) (w : World) :
  has_column c (columns history) = false ->
  bind (line_chart history c) k w = Raise (KeyError c) w.
Proof.
  intros H. unfold line_chart. do 2 apply bind_raise.
  apply getitem_missing. exact H.
Qed.

Lemma chart_column_cases (i : nat) (c : string) :
  nth_error chart_columns i = Some c ->
  (i = 0%nat /\ c = "CPU") \/ (i = 1%nat /\ c = "Memory")
  \/ (i = 2%nat /\ c = "Network_Traffic") \/ (i = 3%nat /\ c = "Disk_IO")
  \/ (i = 4%nat /\ c = "Threads").
Proof.
  destruct i as [|[|[|[|[|i]]]]]; cbn; intros H;
    try (injection H as <-; tauto).
  destruct i; discriminate H.
Qed.

(** X14: A table of more than one row that has its timestamps but lacks one of
    the charted columns stops the trend section with a [KeyError] naming
    the first such column, in the order CPU, Memory, Network_Traffic,
    Disk_IO, Threads: the charts of the columns before it are drawn, none
    after, and the history file is not touched. *)
Theorem chart_column_missing (history : DataFrame) (w : World) (i : nat)
    (c : string) :
  has_column "Timestamp" (columns history) = true ->
  timestamps_convert history = true ->
  (1 < List.length (rows history))%nat ->
  nth_error chart_columns i = Some c ->
  (forall j c', (j < i)%nat -> nth_error chart_columns j = Some c' ->
                has_column c' (columns history) = true) ->
  has_column c (columns history) = false ->
  exists shown,
    trend_section history w
    = Raise (KeyError c) (with_page w (page w ++ shown))
    /\ List.length (filter is_chart shown) = i
    /\ forall s, In (st_line_chart s) shown ->
                 map fst s = map fst (rows (in_time_order history)).
Proof.
  intros Hts Hconv Hlen Hnth Hbefore Hmissing.
  assert (Hcol : forall x, x <> "Timestamp" ->
            has_column x (columns (in_time_order history))
            = has_column x (columns history)).
  { intros x Hx. unfold in_time_order. cbn [columns].
    apply has_column_remove_name. exact Hx. }
  assert (Hp : forall j c', (j < i)%nat ->
            nth_error chart_columns j = Some c' -> c' <> "Timestamp" ->
            has_column c' (columns (in_time_order history)) = true).
  { intros j c' Hj Hc' Hne. rewrite Hcol by exact Hne. eauto. }
  unfold trend_section.
  destruct (chart_column_cases i c Hnth)
    as [[-> ->]|[[-> ->]|[[-> ->]|[[-> ->]|[-> ->]]]]];
    eexists;
    (split;
     [ rewrite <- (with_page_id w) at 1; rewrite bind_st;
       rewrite (len_gtb_1 history Hlen);
       rewrite (bind_ok _ _ _ _ _ (ordered_by_time_ok history _ Hts Hconv));
       repeat first
         [ rewrite bind_st
         | rewrite bind_line_chart_missing
             by (rewrite Hcol by discriminate; exact Hmissing)
         | rewrite bind_line_chart
             by (first
                   [ solve [apply (Hp 0%nat); [lia | reflexivity | discriminate]]
                   | solve [apply (Hp 1%nat); [lia | reflexivity | discriminate]]
                   | solve [apply (Hp 2%nat); [lia | reflexivity | discriminate]]
                   | solve [apply (Hp 3%nat); [lia | reflexivity | discriminate]]
                   ]) ];
       rewrite <- !app_assoc; reflexivity
     | split; [reflexivity|];
       intros s Hin; cbn [In app] in Hin;
       repeat (destruct Hin as [Hin|Hin];
               [try discriminate Hin; injection Hin as <-;
                apply series_index|]);
       contradiction ]).
Qed.

Lemma chart_column_missing_witness :
  (has_column "Timestamp" (columns narrow_history) = true
   /\ timestamps_convert narrow_history = true
   /\ (1 < List.length (rows narrow_history))%nat
   /\ nth_error chart_columns 2 = Some "Network_Traffic"
   /\ (forall j c', (j < 2)%nat -> nth_error chart_columns j = Some c' ->
                    has_column c' (columns narrow_history) = true)
   /\ has_column "Network_Traffic" (columns narrow_history) = false)
  /\ exists shown,
       trend_section narrow_history (mkWorld None None [])
       = Raise (KeyError "Network_Traffic")
           (with_page (mkWorld None None [])
              (page (mkWorld None None []) ++ shown))
       /\ List.length (filter is_chart shown) = 2%nat
       /\ forall s, In (st_line_chart s) shown ->
                    map fst s = map fst (rows (in_time_order narrow_history)).
Proof.
  assert (Hlen : (1 < List.length (rows narrow_history))%nat) by (cbn; lia).
  assert (Hbefore : forall j c', (j < 2)%nat ->
            nth_error chart_columns j = Some c' ->
            has_column c' (columns narrow_history) = true).
  { intros j c' Hj Hc'. destruct j as [|[|j]]; [| |lia];
      cbn in Hc'; injection Hc' as <-; reflexivity. }
  split.
  { split; [reflexivity|]. split; [reflexivity|]. split; [exact Hlen|].
    split; [reflexivity|]. split; [exact Hbefore | reflexivity]. }
  apply (chart_column_missing narrow_history (mkWorld None None []) 2
           "Network_Traffic");
    [reflexivity | reflexivity | exact Hlen | reflexivity | exact Hbefore
    | reflexivity].
Defined.

(** * Start-up with an unreadable or an empty history *)

(** X15: A history file that exists but has no header line stops every run
    with [EmptyDataError] on line 30, after the classifier was loaded: the
    page shows the banner only, no slider is drawn, and the file is left as
    it is, so the page stays unusable until the file is removed. *)
Theorem empty_log_is_fatal (s : Session) (w : World) (m : Model) :
  predictive_model_pkl w = Some (pickled m) ->
  system_log_csv w = Some no_header ->
  app s w = Raise EmptyDataError (with_page w (page w ++ banner))
  /\ existsb is_input banner = false.
Proof.
  intros Hm Hlog. split; [|reflexivity]. unfold app.
  rewrite (bind_ok _ _ _ _ _ (page_config_ok w)).
  unfold bind at 1. unfold joblib_load at 1.
  cbn [with_page predictive_model_pkl]. rewrite Hm.
  apply bind_raise.
  unfold load_history, bind, os_path_exists, read_csv, with_page.
  cbn [system_log_csv]. rewrite !Hlog. reflexivity.
Qed.

Lemma empty_log_is_fatal_witness :
  predictive_model_pkl (mkWorld (Some (pickled some_model)) (Some no_header) [])
  = Some (pickled some_model)
  /\ system_log_csv (mkWorld (Some (pickled some_model)) (Some no_header) [])
     = Some no_header
  /\ app pressed_session
       (mkWorld (Some (pickled some_model)) (Some no_header) [])
     = Raise EmptyDataError
         (with_page (mkWorld (Some (pickled some_model)) (Some no_header) [])
            (page (mkWorld (Some (pickled some_model)) (Some no_header) [])
             ++ banner))
  /\ existsb is_input banner = false.
Proof.
  split; [reflexivity|]. split; [reflexivity|].
  apply (empty_log_is_fatal pressed_session
           (mkWorld (Some (pickled some_model)) (Some no_header) [])
           some_model);
    reflexivity.
Defined.

(** X16: With no record yet (no history file, or one with its header only) and
    the button not pressed, a run ends normally: after the banner, the
    sliders, the metrics and the button it shows the two notices of an
    empty history, no chart and no table, and it writes nothing. *)
Theorem first_visit (s : Session) (w : World) (m : Model) :
  predictive_model_pkl w = Some (pickled m) ->
  system_log_csv w <> Some no_header ->
  stored (system_log_csv w) = [] ->
  predict_button s = false ->
  app s w
  = Ok tt
      (with_page w
         (page w ++ banner ++ input_widgets (slider_reading s)
          ++ no_history_widgets))
  /\ existsb is_chart
       (banner ++ input_widgets (slider_reading s) ++ no_history_widgets)
     = false.
Proof.
  intros Hm Hlog Hstored Hidle. split; [|reflexivity].
  destruct w as [pkl log pg]. destruct s as [r pressed clock].
  cbn [predictive_model_pkl system_log_csv predict_button] in *. subst.
  destruct log as [[|header lines]|]; [contradiction | |];
    cbn [stored] in Hstored; subst;
    unfold app, with_page; cbn; unfold st;
    cbn [page predictive_model_pkl system_log_csv];
    rewrite <- !app_assoc; reflexivity.
Qed.

Lemma first_visit_witness :
  predictive_model_pkl (mkWorld (Some (pickled some_model)) None [])
  = Some (pickled some_model)
  /\ system_log_csv (mkWorld (Some (pickled some_model)) None [])
     <> Some no_header
  /\ stored (system_log_csv (mkWorld (Some (pickled some_model)) None [])) = []
  /\ predict_button idle_session = false
  /\ app idle_session (mkWorld (Some (pickled some_model)) None [])
     = Ok tt
         (with_page (mkWorld (Some (pickled some_model)) None [])
            (page (mkWorld (Some (pickled some_model)) None [])
             ++ banner ++ input_widgets (slider_reading idle_session)
             ++ no_history_widgets))
  /\ existsb is_chart
       (banner ++ input_widgets (slider_reading idle_session)
        ++ no_history_widgets)
     = false.
Proof.
  split; [reflexivity|]. split; [discriminate|]. split; [reflexivity|].
  split; [reflexivity|].
  apply (first_visit idle_session (mkWorld (Some (pickled some_model)) None [])
           some_model);
    [reflexivity | discriminate | reflexivity | reflexivity].
Defined.
